(** * x-feed: RSS-to-channel bots (src/__main__.py, src/local.py,
      src/discord.py, src/slack.py)

    A shallow embedding of the selection / de-duplication pipeline the four
    bots share, and of the parts of each bot that differ: the feed selector's
    two delimiter variants, the history store, the article fetcher, the
    summarizer's prompt truncation and status check, the URL enforcement of
    the local variant and the run loop of the webhook bots.

    Conventions.
    - A Python [str] is a list of characters.  Characters are the code points
      below 256 ([ascii]); the whitespace and line-boundary classes are
      CPython's, restricted to that range.
    - A raised exception is a value of [exn]; a computation that may raise
      returns a [result].  Code that reads or writes the bot object, the
      disk, the log or the clock runs in the monad [M], where the effects
      made before an exception is raised stay in the world.
    - What the environment answers (the random draw, the parsed feed, the
      HTTP responses, the clock) is an explicit input. *)

From Stdlib Require Import String Ascii List Bool Arith NArith ZArith Lia.
From Stdlib Require Import DecimalString.
Import ListNotations.

(* ===================================================================== *)
(** * Python values and built-ins                                         *)
(* ===================================================================== *)

Module Py.

(** ** Strings *)

Definition str := list ascii.

(** A string literal. *)
Definition lit (s : string) : str := list_ascii_of_string s.

Definition chr (n : N) : ascii := ascii_of_N n.
Definition ord (c : ascii) : N := N_of_ascii c.

(** [==] on strings. *)
Fixpoint str_eqb (a b : str) : bool :=
  match a, b with
  | [], [] => true
  | x :: a', y :: b' => Ascii.eqb x y && str_eqb a' b'
  | _, _ => false
  end.

(** [c.isspace()]: TAB, LF, VT, FF, CR, FS, GS, RS, US, SPACE, NEL, NBSP. *)
Definition isspace (c : ascii) : bool :=
  let n := ord c in
  ((9 <=? n) && (n <=? 13) || (28 <=? n) && (n <=? 32)
   || (n =? 133) || (n =? 160))%N.

(** The line boundaries of [str.splitlines]: LF, VT, FF, CR, FS, GS, RS, NEL
    (CR LF counts as one). *)
Definition islinebreak (c : ascii) : bool :=
  let n := ord c in
  ((10 <=? n) && (n <=? 13) || (28 <=? n) && (n <=? 30) || (n =? 133))%N.

(** [s.startswith(prefix)] *)
Fixpoint startswith (s prefix : str) {struct prefix} : bool :=
  match prefix, s with
  | [], _ => true
  | _ :: _, [] => false
  | p :: prefix', c :: s' => Ascii.eqb c p && startswith s' prefix'
  end.

(** [sub in s] *)
Fixpoint contains (s sub : str) : bool :=
  startswith s sub ||
  match s with
  | [] => false
  | _ :: s' => contains s' sub
  end.

(** [s.lstrip()], [s.rstrip()], [s.strip()] *)
Fixpoint lstrip (s : str) : str :=
  match s with
  | [] => []
  | c :: s' => if isspace c then lstrip s' else s
  end.

Definition rstrip (s : str) : str := rev (lstrip (rev s)).

Definition strip (s : str) : str := rstrip (lstrip s).

(** [s[:n]] for [n >= 0] *)
Definition slice_to (s : str) (n : nat) : str := firstn n s.

(** The line in progress is closed: a line is kept even when empty. *)
Definition close_last (cur : str) : list str :=
  match cur with
  | [] => []
  | _ => [cur]
  end.

(** [s.splitlines()]: [cur] is the line read so far.  There is no empty
    last line after a final boundary. *)
Fixpoint splitlines_from (cur : str) (s : str) : list str :=
  match s with
  | [] => close_last cur
  | c :: s' =>
      if islinebreak c then
        cur ::
        (if Ascii.eqb c (chr 13) then
           match s' with
           | d :: s'' =>
               if Ascii.eqb d (chr 10) then splitlines_from [] s''
               else splitlines_from [] s'
           | [] => splitlines_from [] s'
           end
         else splitlines_from [] s')
      else splitlines_from (cur ++ [c]) s'
  end.

Definition splitlines (s : str) : list str := splitlines_from [] s.

(** The first piece of a split grows by one character. *)
Definition cons_head (c : ascii) (pieces : list str) : list str :=
  match pieces with
  | [] => [[c]]
  | p :: ps => (c :: p) :: ps
  end.

(** [s.split(sep)] for a non-empty [sep] (Python raises ValueError on an
    empty one; every call of the bots passes a literal).  [skip] counts the
    characters of a separator just matched that are still to be passed. *)
Fixpoint split_from (sep : str) (skip : nat) (s : str) : list str :=
  match s with
  | [] => [[]]
  | c :: s' =>
      match skip with
      | S k => split_from sep k s'
      | O =>
          if startswith s sep
          then [] :: split_from sep (length sep - 1) s'
          else cons_head c (split_from sep 0 s')
      end
  end.

Definition split (s sep : str) : list str := split_from sep 0 s.

(** [s.split()]: the maximal runs of non-whitespace characters. *)
Definition close_word (cur : str) (rest : list str) : list str :=
  match cur with
  | [] => rest
  | _ => cur :: rest
  end.

Fixpoint split_ws_from (cur : str) (s : str) : list str :=
  match s with
  | [] => close_word cur []
  | c :: s' =>
      if isspace c then close_word cur (split_ws_from [] s')
      else split_ws_from (cur ++ [c]) s'
  end.

Definition split_ws (s : str) : list str := split_ws_from [] s.

(** [sep.join(pieces)] *)
Fixpoint join (sep : str) (pieces : list str) : str :=
  match pieces with
  | [] => []
  | [p] => p
  | p :: ps => p ++ sep ++ join sep ps
  end.

(** [s.replace(old, new)] for a non-empty [old]: the occurrences of [old]
    found scanning from the left, none overlapping the one before. *)
Fixpoint replace_from (old new : str) (skip : nat) (s : str) : str :=
  match s with
  | [] => []
  | c :: s' =>
      match skip with
      | S k => replace_from old new k s'
      | O =>
          if startswith s old
          then new ++ replace_from old new (length old - 1) s'
          else c :: replace_from old new 0 s'
      end
  end.

Definition replace (s old new : str) : str := replace_from old new 0 s.

(** ** Exceptions *)

Inductive exn : Type :=
| Exception (msg : str)
| IndexError (msg : str)
| FileNotFoundError (path : str)
| AttributeError (msg : str)
| KeyboardInterrupt.

(** [isinstance(e, Exception)]: KeyboardInterrupt derives from BaseException
    only. *)
Definition is_Exception (e : exn) : bool :=
  match e with
  | KeyboardInterrupt => false
  | _ => true
  end.

(** [str(e)] *)
Definition str_of_exn (e : exn) : str :=
  match e with
  | Exception msg => msg
  | IndexError msg => msg
  | AttributeError msg => msg
  | FileNotFoundError path =>
      lit "[Errno 2] No such file or directory: '" ++ path ++ lit "'"
  | KeyboardInterrupt => []
  end.

Inductive result (A : Type) : Type :=
| Ok (a : A)
| Raise (e : exn).

Arguments Ok {A} a.
Arguments Raise {A} e.

Definition bind_result {A B} (r : result A) (k : A -> result B) : result B :=
  match r with
  | Ok a => k a
  | Raise e => Raise e
  end.

(** [seq[i]] on a list *)
Definition getitem {A} (seq : list A) (i : nat) : result A :=
  match nth_error seq i with
  | Some a => Ok a
  | None => Raise (IndexError (lit "list index out of range"))
  end.

(** [random.choice(seq)]; [draw] is the generator's raw draw, reduced below
    [len(seq)]. *)
Definition random_choice {A} (draw : nat) (seq : list A) : result A :=
  match seq with
  | [] => Raise (IndexError (lit "Cannot choose from an empty sequence"))
  | _ => getitem seq (draw mod length seq)
  end.

End Py.

Import Py.

(* ===================================================================== *)
(** * Data model                                                          *)
(* ===================================================================== *)

(** One element of the history list: [{'url': ..., 'date': ...}]. *)
Record HistoryRecord : Type := mkHistoryRecord {
  url : str;
  date : str
}.

(** One element of an entry's [content] list: [{'value': ...}]. *)
Record ContentItem : Type := mkContentItem {
  value : str
}.

(** An entry of a parsed feed that carries its title and its link, the two
    keys the bots read as attributes; the other keys are read with
    [entry.get(key, default)] and may be absent.  The entry as feedparser
    gives it, in which the title and the link may be absent too, is
    [ParsedFeed.RawEntry].  feedparser creates [content] when it stores the
    first content element of the entry, so a present [content] has a first
    element. *)
Record Entry : Type := mkEntry {
  entry_title : str;
  entry_link : str;
  entry_description : option str;
  entry_content : option (ContentItem * list ContentItem);
  entry_author : option str;
  entry_published : option str
}.

(** [entry.get(key, default)] *)
Definition entry_get {A} (field : option A) (default : A) : A :=
  match field with
  | Some v => v
  | None => default
  end.

(** [entry.get('content', [{'value': ''}])[0]['value']] *)
Definition entry_content_value (entry : Entry) : str :=
  value (fst (entry_get (entry_content entry) (mkContentItem [], []))).

(** [any(post['url'] == link for post in posted_articles)] *)
Definition any_url_eq (posted_articles : list HistoryRecord) (link : str) : bool :=
  existsb (fun post => str_eqb (url post) link) posted_articles.

(** Some record of the history has this url. *)
Definition in_history (history : list HistoryRecord) (link : str) : Prop :=
  exists post, In post history /\ url post = link.

(** How many records of the history have this url. *)
Definition count_url (history : list HistoryRecord) (link : str) : nat :=
  length (filter (fun post => str_eqb (url post) link) history).

(** ** The generation endpoint *)

Record ChatMessage : Type := mkChatMessage {
  role : str;
  message_content : str
}.

(** The arguments of [requests.post]: the address, the headers and the JSON
    body.  [temperature] is the decimal literal, numerator over
    denominator. *)
Record Request : Type := mkRequest {
  endpoint : str;
  headers : list (str * str);
  messages : list ChatMessage;
  model : str;
  stream : bool;
  temperature : Z * Z
}.

(** The response of the generation endpoint: [response.status_code],
    [response.text] and, in [response.json()], the text at
    [['choices'][0]['message']['content']]. *)
Record Response : Type := mkResponse {
  status_code : Z;
  text : str;
  choices_0_message_content : str
}.

(** The response of the tweet endpoint; [json_repr] is [response.json()] as
    an f-string prints it. *)
Record TweetResponse : Type := mkTweetResponse {
  tweet_status_code : Z;
  tweet_error_text : str;
  json_repr : str
}.

(** A Discord embed as [post_to_discord] fills it. *)
Record Embed : Type := mkEmbed {
  embed_title : str;
  embed_description : str;
  embed_url : str;
  embed_color : Z;
  embed_author : str;
  embed_footer : str
}.

(** What left the process, in order. *)
Inductive Sent : Type :=
| SentGeneration (request : Request)
| SentTweet (payload_text : str)
| SentWebhook (embed : Embed).

Inductive Level : Type := INFO | ERROR.

(* ===================================================================== *)
(** * The world and the monad of effects                                  *)
(* ===================================================================== *)

(** The bot object and its surroundings.
    - [feed_files]: the text files by path, as [f.read()] returns them;
    - [history_file]: logs/posted_articles.json, absent or holding the JSON
      array [json.dump] wrote, which [json.load] gives back;
    - [posted_articles]: the attribute [self.posted_articles];
    - [clock]: how many times [datetime.now()] was read;
    - [log], [outbox], [slept]: the records logged, the requests made and
      the delays slept, oldest first. *)
Record World : Type := mkWorld {
  feed_files : str -> option str;
  history_file : option (list HistoryRecord);
  posted_articles : list HistoryRecord;
  clock : nat;
  log : list (Level * str);
  outbox : list Sent;
  slept : list nat
}.

(** What the surroundings answer during one cycle; [api_key] is the
    credential of the configuration module. *)
Record Env : Type := mkEnv {
  api_key : str;
  draw : nat;
  feedparser_parse : str -> list Entry;
  isoformat : nat -> str;
  generation_response : Request -> Response;
  tweet_response : str -> TweetResponse;
  webhook_status : Embed -> Z;
  interrupted : bool
}.

Definition M (A : Type) : Type := World -> result A * World.

Definition ret {A} (a : A) : M A := fun w => (Ok a, w).

Definition bind {A B} (m : M A) (k : A -> M B) : M B :=
  fun w =>
    match m w with
    | (Ok a, w') => k a w'
    | (Raise e, w') => (Raise e, w')
    end.

Definition raise {A} (e : exn) : M A := fun w => (Raise e, w).

Definition lift {A} (r : result A) : M A := fun w => (r, w).

Definition gets {A} (f : World -> A) : M A := fun w => (Ok (f w), w).

Definition modify (f : World -> World) : M unit := fun w => (Ok tt, f w).

Declare Scope py_scope.
Delimit Scope py_scope with py.

Notation "x <- c1 ;; c2" := (bind c1 (fun x => c2))
  (at level 61, c1 at next level, right associativity) : py_scope.
Notation "c1 ;; c2" := (bind c1 (fun _ => c2))
  (at level 61, right associativity) : py_scope.

Open Scope py_scope.

(** [try: body / except Exception as e: handler e] *)
Definition try_except_Exception {A} (body : M A) (handler : exn -> M A) : M A :=
  fun w =>
    match body w with
    | (Ok a, w') => (Ok a, w')
    | (Raise e, w') => if is_Exception e then handler e w' else (Raise e, w')
    end.

(** [try: body / except KeyboardInterrupt: on_interrupt /
     except Exception as e: handler e] *)
Definition try_except_KeyboardInterrupt_Exception {A}
  (body : M A) (on_interrupt : M A) (handler : exn -> M A) : M A :=
  fun w =>
    match body w with
    | (Ok a, w') => (Ok a, w')
    | (Raise KeyboardInterrupt, w') => on_interrupt w'
    | (Raise e, w') => handler e w'
    end.

Definition set_posted_articles (l : list HistoryRecord) (w : World) : World :=
  mkWorld (feed_files w) (history_file w) l (clock w) (log w) (outbox w) (slept w).

Definition set_history_file (f : option (list HistoryRecord)) (w : World) : World :=
  mkWorld (feed_files w) f (posted_articles w) (clock w) (log w) (outbox w) (slept w).

Definition set_clock (n : nat) (w : World) : World :=
  mkWorld (feed_files w) (history_file w) (posted_articles w) n (log w) (outbox w) (slept w).

Definition add_log (r : Level * str) (w : World) : World :=
  mkWorld (feed_files w) (history_file w) (posted_articles w) (clock w)
          (log w ++ [r]) (outbox w) (slept w).

Definition add_outbox (s : Sent) (w : World) : World :=
  mkWorld (feed_files w) (history_file w) (posted_articles w) (clock w)
          (log w) (outbox w ++ [s]) (slept w).

Definition add_slept (n : nat) (w : World) : World :=
  mkWorld (feed_files w) (history_file w) (posted_articles w) (clock w)
          (log w) (outbox w) (slept w ++ [n]).

Definition logging_info (msg : str) : M unit := modify (add_log (INFO, msg)).
Definition logging_error (msg : str) : M unit := modify (add_log (ERROR, msg)).

(** [datetime.now().isoformat()] *)
Definition datetime_now_isoformat (env : Env) : M str :=
  fun w => (Ok (isoformat env (clock w)), set_clock (S (clock w)) w).

(** [time.sleep(seconds)]; the user's interrupt, when there is one, arrives
    during the delay. *)
Definition time_sleep (env : Env) (seconds : nat) : M unit :=
  fun w =>
    (if interrupted env then Raise KeyboardInterrupt else Ok tt,
     add_slept seconds w).

(** [with open(file_path, 'r') as f: f.read()] *)
Definition read_text (file_path : str) : M str :=
  fun w =>
    match feed_files w file_path with
    | Some s => (Ok s, w)
    | None => (Raise (FileNotFoundError file_path), w)
    end.

(** [str(n)] for a natural number *)
Definition str_of_nat (n : nat) : str :=
  lit (NilEmpty.string_of_uint (Nat.to_uint n)).

(** [response.ok], the truth value of a [requests.Response] *)
Definition response_ok (status : Z) : bool :=
  negb ((400 <=? status)%Z && (status <? 600)%Z).

(** Truth value of a string: it is not empty. *)
Definition truthy (s : str) : bool :=
  match s with
  | [] => false
  | _ => true
  end.

Definition newline : str := [chr 10].

(** A line the filter of [get_random_feed_url] drops: empty, or beginning
    with the comment marker. *)
Definition dropped (line : str) : Prop :=
  line = [] \/ startswith line (lit "#") = true.

(** A line that begins with a character of the URL: neither whitespace nor
    the separator [sep] of the variant ('!' where the variant has one). *)
Definition begins_with_url (sep : option ascii) (line : str) : Prop :=
  exists c rest,
    line = c :: rest /\ isspace c = false /\ sep <> Some c.

(** What the selector is expected to return: not blank, not a comment. *)
Definition usable_url (u : str) : Prop :=
  u <> [] /\ startswith u (lit "#") = false.

(* ===================================================================== *)
(** * src/__main__.py: class RssTweetBot                                  *)
(* ===================================================================== *)

Module TweetBot.

Record Article : Type := mkArticle {
  title : str;
  link : str;
  description : str;
  content : str
}.

(** [load_history]: the array in the history file, or the empty list when
    there is no file. *)
Definition load_history : M (list HistoryRecord) :=
  fun w =>
    match history_file w with
    | Some doc => (Ok doc, w)
    | None => (Ok [], w)
    end.

(** [__init__], the history part: [self.posted_articles = self.load_history()] *)
Definition init : M unit :=
  h <- load_history ;;
  modify (set_posted_articles h).

(** [save_history]: append the record to [self.posted_articles], then write
    the whole list over the file. *)
Definition save_history (env : Env) (article_url : str) : M unit :=
  now <- datetime_now_isoformat env ;;
  modify (fun w => set_posted_articles
                     (posted_articles w ++ [mkHistoryRecord article_url now]) w) ;;
  modify (fun w => set_history_file (Some (posted_articles w)) w).

(** The loop of [get_random_feed_url] over the lines, [valid_feeds] being
    the list built so far. *)
Fixpoint valid_feeds_loop (feeds : list str) (valid_feeds : list str)
  : result (list str) :=
  match feeds with
  | [] => Ok valid_feeds
  | line :: rest =>
      if truthy line && negb (startswith line (lit "#")) then
        bind_result (getitem (split line (lit "!")) 0) (fun part =>
        let url := strip part in
        valid_feeds_loop rest (valid_feeds ++ [url]))
      else valid_feeds_loop rest valid_feeds
  end.

Definition get_random_feed_url (env : Env) (file_path : str) : M str :=
  text <- read_text file_path ;;
  let feeds := splitlines text in
  valid_feeds <- lift (valid_feeds_loop feeds []) ;;
  lift (random_choice (draw env) valid_feeds).

(** The dict [get_latest_article] builds from an entry. *)
Definition article_of (entry : Entry) : Article :=
  mkArticle (entry_title entry)
            (entry_link entry)
            (entry_get (entry_description entry) [])
            (entry_content_value entry).

(** The loop of [get_latest_article] over [feed.entries]. *)
Fixpoint first_unposted (posted : list HistoryRecord) (feed_url : str)
  (entries : list Entry) : result Article :=
  match entries with
  | [] => Raise (Exception (lit "No new articles found in feed: " ++ feed_url))
  | entry :: rest =>
      if negb (any_url_eq posted (entry_link entry)) then Ok (article_of entry)
      else first_unposted posted feed_url rest
  end.

Definition get_latest_article (env : Env) (feed_url : str) : M Article :=
  let feed := feedparser_parse env feed_url in
  match feed with
  | [] => raise (Exception (lit "No entries found in feed: " ++ feed_url))
  | _ =>
      posted <- gets posted_articles ;;
      lift (first_unposted posted feed_url feed)
  end.

(** ** generate_tweet, post_tweet and main *)

Definition system_prompt : str :=
  lit "You are a social media expert who creates engaging tweets. Your tweets should be informative yet conversational, and always include the article URL at the end.".

Definition indent : str := lit "                        ".

Definition user_prompt (article : Article) : str :=
  lit "Read this article and create an engaging tweet about it:" ++ newline
  ++ indent ++ newline
  ++ indent ++ lit "Title: " ++ title article ++ newline
  ++ indent ++ lit "Content: " ++ description article ++ lit " "
            ++ content article ++ newline
  ++ indent ++ lit "URL: " ++ link article.

(** [api_key env] is the value of XAI_API_KEY, which [__init__] reads; the
    variable is taken to be set. *)
Definition tweet_request (env : Env) (article : Article) : Request :=
  mkRequest
    (lit "https://api.x.ai/v1/chat/completions")
    [(lit "Authorization", lit "Bearer " ++ api_key env);
     (lit "Content-Type", lit "application/json")]
    [mkChatMessage (lit "system") system_prompt;
     mkChatMessage (lit "user") (user_prompt article)]
    (lit "grok-beta")
    false
    (7, 10)%Z.

Definition generate_tweet (env : Env) (article : Article) : M str :=
  let request := tweet_request env article in
  modify (add_outbox (SentGeneration request)) ;;
  let response := generation_response env request in
  if negb (status_code response =? 200)%Z then
    raise (Exception (lit "XAI API error: " ++ text response))
  else
    ret (strip (choices_0_message_content response)).

Definition post_tweet (env : Env) (tweet_text : str) : M str :=
  modify (add_outbox (SentTweet tweet_text)) ;;
  let response := tweet_response env tweet_text in
  if negb (tweet_status_code response =? 201)%Z then
    raise (Exception (lit "Error posting tweet: " ++ tweet_error_text response))
  else
    ret (json_repr response).

Definition main (env : Env) : M unit :=
  try_except_Exception
    (init ;;
     feed_url <- get_random_feed_url env (lit "rss_feeds.txt") ;;
     logging_info (lit "Selected feed: " ++ feed_url) ;;
     article <- get_latest_article env feed_url ;;
     logging_info (lit "Found article: " ++ title article) ;;
     tweet <- generate_tweet env article ;;
     logging_info (lit "Generated tweet: " ++ tweet) ;;
     response <- post_tweet env tweet ;;
     logging_info (lit "Tweet posted successfully: " ++ response) ;;
     save_history env (link article) ;;
     logging_info (lit "Updated article history"))
    (fun e =>
       logging_error (lit "Error: " ++ str_of_exn e) ;;
       raise e).

End TweetBot.

(* ===================================================================== *)
(** * get_latest_article on the entries as feedparser gives them          *)
(* ===================================================================== *)

Module ParsedFeed.

(** An entry of [feed.entries]: a dict in which each key may be absent. *)
Record RawEntry : Type := mkRawEntry {
  raw_title : option str;
  raw_link : option str;
  raw_description : option str;
  raw_content : option (ContentItem * list ContentItem)
}.

(** [entry.name], the key read as an attribute: an absent key raises
    AttributeError. *)
Definition getattr (field : option str) (name : str) : result str :=
  match field with
  | Some v => Ok v
  | None => Raise (AttributeError (lit "object has no attribute '" ++ name
                                   ++ lit "'"))
  end.

(** [any(post['url'] == entry.link for post in posted_articles)]:
    [entry.link] is read for each record that is looked at, so not at all
    when the history is empty. *)
Fixpoint any_url_eq_link (posted : list HistoryRecord) (entry : RawEntry)
  : result bool :=
  match posted with
  | [] => Ok false
  | post :: rest =>
      bind_result (getattr (raw_link entry) (lit "link")) (fun link =>
      if str_eqb (url post) link then Ok true
      else any_url_eq_link rest entry)
  end.

(** The dict [get_latest_article] builds, key after key. *)
Definition article_of (entry : RawEntry) : result TweetBot.Article :=
  bind_result (getattr (raw_title entry) (lit "title")) (fun title =>
  bind_result (getattr (raw_link entry) (lit "link")) (fun link =>
  Ok (TweetBot.mkArticle
        title link
        (entry_get (raw_description entry) [])
        (value (fst (entry_get (raw_content entry) (mkContentItem [], []))))))).

(** The loop of [get_latest_article] over [feed.entries]. *)
Fixpoint first_unposted (posted : list HistoryRecord) (feed_url : str)
  (entries : list RawEntry) : result TweetBot.Article :=
  match entries with
  | [] => Raise (Exception (lit "No new articles found in feed: " ++ feed_url))
  | entry :: rest =>
      bind_result (any_url_eq_link posted entry) (fun found =>
      if negb found then article_of entry
      else first_unposted posted feed_url rest)
  end.

(** [get_latest_article] of src/__main__.py; [parse] is [feedparser.parse]
    up to [.entries]. *)
Definition get_latest_article (parse : str -> list RawEntry) (feed_url : str)
  : M TweetBot.Article :=
  let feed := parse feed_url in
  match feed with
  | [] => raise (Exception (lit "No entries found in feed: " ++ feed_url))
  | _ =>
      posted <- gets posted_articles ;;
      lift (first_unposted posted feed_url feed)
  end.

(** An entry that carries its title and its link, as a raw entry. *)
Definition complete (entry : Entry) : RawEntry :=
  mkRawEntry (Some (entry_title entry)) (Some (entry_link entry))
             (entry_description entry) (entry_content entry).

(** The entry has a link, and the link is the url of a record. *)
Definition posted_entry (history : list HistoryRecord) (entry : RawEntry) : Prop :=
  exists link, raw_link entry = Some link /\ in_history history link.

(** The entry cannot be made an article: it has no link, or its link is
    the url of no record and it has no title. *)
Definition lacks_attribute (history : list HistoryRecord) (entry : RawEntry)
  : Prop :=
  raw_link entry = None
  \/ (exists link, raw_link entry = Some link
                   /\ ~ in_history history link
                   /\ raw_title entry = None).

End ParsedFeed.

(* ===================================================================== *)
(** * src/local.py: class RssTweetBot and main                            *)
(* ===================================================================== *)

Module LocalBot.

(** [load_history], [get_random_feed_url] and [get_latest_article] have the
    text of src/__main__.py; [save_history] first makes sure that the logs
    directory exists, which leaves this world as it is. *)
Definition Article := TweetBot.Article.
Definition init := TweetBot.init.
Definition save_history := TweetBot.save_history.
Definition get_random_feed_url := TweetBot.get_random_feed_url.
Definition get_latest_article := TweetBot.get_latest_article.

Definition system_prompt : str :=
  lit "You are a social media expert who creates engaging tweets. Your tweets should be informative yet conversational. IMPORTANT: Replace any [URL] placeholder with the actual article URL in your response. The full article URL must be included in the tweet.".

Definition indent : str := lit "                        ".

Definition user_prompt (article : Article) : str :=
  lit "Read this article and create an engaging tweet about it:" ++ newline
  ++ indent ++ newline
  ++ indent ++ lit "Title: " ++ TweetBot.title article ++ newline
  ++ indent ++ lit "Content: " ++ TweetBot.description article ++ lit " "
            ++ TweetBot.content article ++ newline
  ++ indent ++ lit "URL: " ++ TweetBot.link article.

Definition tweet_request (env : Env) (article : Article) : Request :=
  mkRequest
    (lit "http://localhost:3000/api/chat/completions")
    [(lit "Authorization", lit "Bearer " ++ api_key env);
     (lit "Content-Type", lit "application/json")]
    [mkChatMessage (lit "system") system_prompt;
     mkChatMessage (lit "user") (user_prompt article)]
    (lit "phi4:14b")
    false
    (7, 10)%Z.

Definition generate_tweet (env : Env) (article : Article) : M str :=
  let request := tweet_request env article in
  modify (add_outbox (SentGeneration request)) ;;
  let response := generation_response env request in
  if negb (status_code response =? 200)%Z then
    raise (Exception (lit "Ollama API error: " ++ text response))
  else
    ret (strip (choices_0_message_content response)).

Definition post_tweet (env : Env) (tweet_text : str) : M str :=
  modify (add_outbox (SentTweet tweet_text)) ;;
  let response := tweet_response env tweet_text in
  if negb (tweet_status_code response =? 201)%Z then
    raise (Exception (lit "Error posting tweet: " ++ tweet_error_text response))
  else
    ret (json_repr response).

(** Lines 153-158 of [main]: the tweet that is posted. *)
Definition ensure_url (tweet : str) (link : str) : str :=
  if negb (contains tweet link) then
    if contains tweet (lit "[URL]") then replace tweet (lit "[URL]") link
    else rstrip tweet ++ lit " " ++ link
  else tweet.

Definition main (env : Env) : M unit :=
  try_except_Exception
    (init ;;
     feed_url <- get_random_feed_url env (lit "rss_feeds.txt") ;;
     logging_info (lit "Selected feed: " ++ feed_url) ;;
     article <- get_latest_article env feed_url ;;
     logging_info (lit "Found article: " ++ TweetBot.title article) ;;
     tweet <- generate_tweet env article ;;
     logging_info (lit "Generated tweet: " ++ tweet) ;;
     let tweet := ensure_url tweet (TweetBot.link article) in
     response <- post_tweet env tweet ;;
     logging_info (lit "Tweet posted successfully: " ++ response) ;;
     save_history env (TweetBot.link article) ;;
     logging_info (lit "Updated article history"))
    (fun e =>
       logging_error (lit "Error: " ++ str_of_exn e) ;;
       raise e).

End LocalBot.

(* ===================================================================== *)
(** * src/discord.py: class RssDiscordBot and main                        *)
(* ===================================================================== *)

Module DiscordBot.

Record Article : Type := mkArticle {
  title : str;
  link : str;
  description : str;
  content : str;
  author : str;
  published : str
}.

(** [load_history] has the text of src/__main__.py; [save_history] first
    makes sure that the logs directory exists, which leaves this world as it
    is. *)
Definition load_history := TweetBot.load_history.
Definition init := TweetBot.init.
Definition save_history := TweetBot.save_history.

(** The loop of [get_random_feed_url] over the lines. *)
Fixpoint valid_feeds_loop (feeds : list str) (valid_feeds : list str)
  : result (list str) :=
  match feeds with
  | [] => Ok valid_feeds
  | line :: rest =>
      if truthy line && negb (startswith line (lit "#")) then
        bind_result (getitem (split_ws line) 0) (fun part =>
        let url := strip part in
        valid_feeds_loop rest (valid_feeds ++ [url]))
      else valid_feeds_loop rest valid_feeds
  end.

Definition get_random_feed_url (env : Env) (file_path : str) : M str :=
  text <- read_text file_path ;;
  let feeds := splitlines text in
  valid_feeds <- lift (valid_feeds_loop feeds []) ;;
  lift (random_choice (draw env) valid_feeds).

(** The loop of [get_latest_article] over [feed.entries]; the clock is read
    for the default of [published]. *)
Fixpoint first_unposted (env : Env) (posted : list HistoryRecord)
  (feed_url : str) (entries : list Entry) : M Article :=
  match entries with
  | [] => raise (Exception (lit "No new articles found in feed: " ++ feed_url))
  | entry :: rest =>
      if negb (any_url_eq posted (entry_link entry)) then
        now <- datetime_now_isoformat env ;;
        ret (mkArticle (entry_title entry)
                       (entry_link entry)
                       (entry_get (entry_description entry) [])
                       (entry_content_value entry)
                       (entry_get (entry_author entry) (lit "Unknown Author"))
                       (entry_get (entry_published entry) now))
      else first_unposted env posted feed_url rest
  end.

Definition get_latest_article (env : Env) (feed_url : str) : M Article :=
  let feed := feedparser_parse env feed_url in
  match feed with
  | [] => raise (Exception (lit "No entries found in feed: " ++ feed_url))
  | _ =>
      posted <- gets posted_articles ;;
      first_unposted env posted feed_url feed
  end.

Definition max_content_length : nat := 500.

Definition combined_content (article : Article) : str :=
  strip (description article ++ lit " " ++ content article).

Definition truncated_content (article : Article) : str :=
  slice_to (combined_content article) max_content_length
  ++ (if max_content_length <? length (combined_content article)
      then lit "..." else []).

Definition system_prompt : str :=
  lit "You are a friendly content curator. Create engaging, professional summaries. "
  ++ lit "Keep responses concise and precise, around 2-3 sentences. "
  ++ lit "Write in a natural, conversational tone that would be appropriate for a Discord channel.".

Definition user_prompt (article : Article) : str :=
  lit "Title: " ++ title article ++ newline
  ++ lit "Content: " ++ truncated_content article.

Definition summary_request (env : Env) (article : Article) : Request :=
  mkRequest
    (lit "http://localhost:3000/api/chat/completions")
    [(lit "Authorization", lit "Bearer " ++ api_key env);
     (lit "Content-Type", lit "application/json")]
    [mkChatMessage (lit "system") system_prompt;
     mkChatMessage (lit "user") (user_prompt article)]
    (lit "phi4:14b")
    false
    (7, 10)%Z.

Definition generate_summary (env : Env) (article : Article) : M str :=
  let request := summary_request env article in
  modify (add_outbox (SentGeneration request)) ;;
  let response := generation_response env request in
  if negb (status_code response =? 200)%Z then
    raise (Exception (lit "Ollama API error: " ++ text response))
  else
    ret (strip (choices_0_message_content response)).

(** [webhook.execute()] is taken to return the response of the webhook,
    of which [webhook_status] is the status; what the library raises on its
    own way to that response is not part of this world. *)
Definition post_to_discord (env : Env) (article : Article) (summary : str) : M Z :=
  let embed :=
    mkEmbed (title article) summary (link article) 7506394%Z
            (author article) (lit "Published: " ++ published article) in
  modify (add_outbox (SentWebhook embed)) ;;
  let response := webhook_status env embed in
  if negb (response_ok response) then
    raise (Exception (lit "Error posting to Discord"))
  else
    ret response.

Definition interval : nat := 3.

(** The statements of the inner [try] of the loop: one cycle. *)
Definition cycle (env : Env) : M unit :=
  feed_url <- get_random_feed_url env (lit "rss_feeds.txt") ;;
  logging_info (lit "Selected feed: " ++ feed_url) ;;
  article <- get_latest_article env feed_url ;;
  logging_info (lit "Found article: " ++ title article) ;;
  summary <- generate_summary env article ;;
  logging_info (lit "Generated summary: " ++ summary) ;;
  response <- post_to_discord env article summary ;;
  logging_info (lit "Posted to Discord successfully") ;;
  save_history env (link article) ;;
  logging_info (lit "Updated article history").

(** The body of [while True]: the guarded cycle, then the delay. *)
Definition loop_body (env : Env) : M unit :=
  try_except_Exception
    (cycle env)
    (fun e => logging_error (lit "Error in main loop: " ++ str_of_exn e)) ;;
  logging_info (lit "Sleeping for " ++ str_of_nat interval ++ lit " seconds...") ;;
  time_sleep env interval.

(** [while True] over the cycles whose surroundings are given: the loop has
    no exit of its own, and [while_True []] stands at the head of the next
    iteration. *)
Fixpoint while_True (envs : list Env) : M unit :=
  match envs with
  | [] => ret tt
  | env :: rest => loop_body env ;; while_True rest
  end.

Definition main (envs : list Env) : M unit :=
  try_except_KeyboardInterrupt_Exception
    (init ;;
     while_True envs)
    (logging_info (lit "Bot stopped by user"))
    (fun e =>
       logging_error (lit "Fatal error: " ++ str_of_exn e) ;;
       raise e).

End DiscordBot.

(* ===================================================================== *)
(** * src/slack.py: class RssSlackBot                                     *)
(* ===================================================================== *)

Module SlackBot.

(** [get_random_feed_url] and [get_latest_article] have the text of
    src/discord.py, and so has [generate_summary] up to the system prompt. *)
Definition Article := DiscordBot.Article.
Definition valid_feeds_loop := DiscordBot.valid_feeds_loop.
Definition get_random_feed_url := DiscordBot.get_random_feed_url.
Definition get_latest_article := DiscordBot.get_latest_article.

Definition max_content_length : nat := 500.

Definition combined_content (article : Article) : str :=
  strip (DiscordBot.description article ++ lit " " ++ DiscordBot.content article).

Definition truncated_content (article : Article) : str :=
  slice_to (combined_content article) max_content_length
  ++ (if max_content_length <? length (combined_content article)
      then lit "..." else []).

Definition system_prompt : str :=
  lit "You are a friendly content curator for the devops team in the data and analytics department at a children's hospital. Create engaging, professional summaries. "
  ++ lit "Keep responses concise and precise, around 2-3 sentences. "
  ++ lit "Write in a natural, conversational tone that would be appropriate for a Slack channel."
  ++ lit "Only generate a responseif the content is relevant to the devops team, otherwise generate nothing.".

Definition user_prompt (article : Article) : str :=
  lit "Title: " ++ DiscordBot.title article ++ newline
  ++ lit "Content: " ++ truncated_content article.

Definition summary_request (env : Env) (article : Article) : Request :=
  mkRequest
    (lit "http://localhost:3000/api/chat/completions")
    [(lit "Authorization", lit "Bearer " ++ api_key env);
     (lit "Content-Type", lit "application/json")]
    [mkChatMessage (lit "system") system_prompt;
     mkChatMessage (lit "user") (user_prompt article)]
    (lit "phi4:14b")
    false
    (7, 10)%Z.

Definition generate_summary (env : Env) (article : Article) : M str :=
  let request := summary_request env article in
  modify (add_outbox (SentGeneration request)) ;;
  let response := generation_response env request in
  if negb (status_code response =? 200)%Z then
    raise (Exception (lit "Ollama API error: " ++ text response))
  else
    ret (strip (choices_0_message_content response)).

End SlackBot.

(* ===================================================================== *)
(** * Predicates on computations                                          *)
(* ===================================================================== *)

(** Whatever [m] raises is an instance of [Exception]. *)
Definition raises_only_Exception {A} (m : M A) : Prop :=
  forall w e, fst (m w) = Raise e -> is_Exception e = true.

(** [m] adds to the outbox, and what it adds satisfies [P]. *)
Definition sends (P : Sent -> Prop) {A} (m : M A) : Prop :=
  forall w, exists l, outbox (snd (m w)) = outbox w ++ l /\ Forall P l.

(** A tweet of src/local.py went through lines 153-158 of [main]: it is
    [ensure_url] of a generated text and the link of a fetched article. *)
Definition posted_as_ensured (env : Env) (s : Sent) : Prop :=
  match s with
  | SentTweet posted =>
      exists feed_url article tweet wa wb,
        fst (LocalBot.get_latest_article env feed_url wa) = Ok article
        /\ fst (LocalBot.generate_tweet env article wb) = Ok tweet
        /\ posted = LocalBot.ensure_url tweet (TweetBot.link article)
  | _ => True
  end.

(* ===================================================================== *)
(** * Sample worlds                                                       *)
(* ===================================================================== *)

Module Samples.

Definition stamp (n : nat) : str := lit "2024-05-01T12:00:0" ++ str_of_nat n.

Definition entryA : Entry :=
  mkEntry (lit "Title A") (lit "A") None None None None.

Definition entryB : Entry :=
  mkEntry (lit "Title B") (lit "B") (Some (lit "about B"))
          (Some (mkContentItem (lit "body B"), [])) None None.

(** A feed list file at rss_feeds.txt and nothing else. *)
Definition files_with (feeds : str) : str -> option str :=
  fun path => if str_eqb path (lit "rss_feeds.txt") then Some feeds else None.

Definition feed_list : str :=
  lit "# comment" ++ newline ++ newline ++ lit "http://example.com/feed.xml".

Definition world_with (feeds : str) (history : list HistoryRecord) : World :=
  mkWorld (files_with feeds) (Some history) history 0 [] [] [].

Definition historyA : list HistoryRecord :=
  [mkHistoryRecord (lit "A") (lit "2024-04-30T08:00:00")].

Definition worldA : World := world_with feed_list historyA.

(** The feed holds A and B; the endpoints answer with the given statuses. *)
Definition env_with (n : nat) (generation_status : Z) : Env :=
  mkEnv (lit "secret") n
        (fun _ => [entryA; entryB])
        stamp
        (fun _ => mkResponse generation_status (lit "upstream down")
                             (lit "  B is out. [URL]  "))
        (fun _ => mkTweetResponse 201 [] (lit "{'data': {}}"))
        (fun _ => 204%Z)
        false.

(** Two feed lists with one usable line and one line that begins with a
    space. *)
Definition feed_list_space : str :=
  lit "http://example.com/feed.xml" ++ newline ++ lit " " ++ newline.

Definition feed_list_indented_comment : str :=
  lit "http://example.com/feed.xml" ++ newline ++ lit " # off" ++ newline.

(** A feed list of comments and empty lines only. *)
Definition feed_list_unusable : str :=
  lit "# comment" ++ newline ++ newline ++ lit "#http://example.com/feed.xml"
  ++ newline.

(** The article of entry B as src/discord.py builds it at the first reading
    of the clock. *)
Definition articleB : DiscordBot.Article :=
  DiscordBot.mkArticle (lit "Title B") (lit "B") (lit "about B") (lit "body B")
                       (lit "Unknown Author") (stamp 0).

(** An item without link, then B. *)
Definition raw_no_link : ParsedFeed.RawEntry :=
  ParsedFeed.mkRawEntry (Some (lit "Untitled")) None None None.

Definition raw_feed_no_link (_ : str) : list ParsedFeed.RawEntry :=
  [raw_no_link; ParsedFeed.complete entryB].

Definition raw_feed_AB (_ : str) : list ParsedFeed.RawEntry :=
  [ParsedFeed.complete entryA; ParsedFeed.complete entryB].

Definition env_ok : Env := env_with 0 200.
Definition env_500 : Env := env_with 0 500.

End Samples.

(* ===================================================================== *)
(** * Shapes shared by the variants                                       *)
(* ===================================================================== *)

(** The filter of [get_random_feed_url]: [line and not line.startswith('#')]. *)
Definition kept (line : str) : bool :=
  truthy line && negb (startswith line (lit "#")).

(** A text neither begins nor ends with whitespace. *)
Definition no_outer_space (s : str) : Prop :=
  (forall c r, s = c :: r -> isspace c = false)
  /\ (forall c r, s = r ++ [c] -> isspace c = false).

(** [save_history] called for each url in turn. *)
Fixpoint save_each (env : Env) (urls : list str) : M unit :=
  match urls with
  | [] => ret tt
  | u :: rest => TweetBot.save_history env u ;; save_each env rest
  end.

(** The first entry of the feed that the history does not hold. *)
Definition first_new (posted : list HistoryRecord) (entries : list Entry)
  : option Entry :=
  find (fun entry => negb (any_url_eq posted (entry_link entry))) entries.

(** The call of the generation endpoint that [generate_tweet] and
    [generate_summary] make, up to the request and the label of the error. *)
Definition generation_call (env : Env) (request : Request) (label : str) : M str :=
  modify (add_outbox (SentGeneration request)) ;;
  let response := generation_response env request in
  if negb (status_code response =? 200)%Z then
    raise (Exception (label ++ text response))
  else
    ret (strip (choices_0_message_content response)).

(** [main] of src/__main__.py and of src/local.py, up to the generation
    request, the label of its error and what is done to the tweet before it
    is posted. *)
Definition single_shot (request_of : Env -> TweetBot.Article -> Request)
  (label : str) (finish : str -> str -> str) (env : Env) : M unit :=
  try_except_Exception
    (TweetBot.init ;;
     feed_url <- TweetBot.get_random_feed_url env (lit "rss_feeds.txt") ;;
     logging_info (lit "Selected feed: " ++ feed_url) ;;
     article <- TweetBot.get_latest_article env feed_url ;;
     logging_info (lit "Found article: " ++ TweetBot.title article) ;;
     tweet <- generation_call env (request_of env article) label ;;
     logging_info (lit "Generated tweet: " ++ tweet) ;;
     let tweet := finish tweet (TweetBot.link article) in
     response <- TweetBot.post_tweet env tweet ;;
     logging_info (lit "Tweet posted successfully: " ++ response) ;;
     TweetBot.save_history env (TweetBot.link article) ;;
     logging_info (lit "Updated article history"))
    (fun e =>
       logging_error (lit "Error: " ++ str_of_exn e) ;;
       raise e).

(** The URL the '!' variant takes from a line, and the one the whitespace
    variant takes from a line that has a word. *)
Definition url_before_bang (line : str) : str :=
  strip (hd [] (split line (lit "!"))).

Definition url_first_word (line : str) : str :=
  strip (hd [] (split_ws line)).

(** A line that is not empty and holds whitespace only. *)
Definition whitespace_only (line : str) : bool :=
  truthy line && forallb isspace line.

(** The history as a run that starts now would load it. *)
Definition stored_history (w : World) : list HistoryRecord :=
  match history_file w with
  | Some doc => doc
  | None => []
  end.

(** The embed [post_to_discord] sends. *)
Definition discord_embed (article : DiscordBot.Article) (summary : str) : Embed :=
  mkEmbed (DiscordBot.title article) summary (DiscordBot.link article)
          7506394%Z (DiscordBot.author article)
          (lit "Published: " ++ DiscordBot.published article).

(** The article src/discord.py builds from an entry when the clock reads
    [now]. *)
Definition discord_article_of (entry : Entry) (now : str) : DiscordBot.Article :=
  DiscordBot.mkArticle (entry_title entry) (entry_link entry)
                       (entry_get (entry_description entry) [])
                       (entry_content_value entry)
                       (entry_get (entry_author entry) (lit "Unknown Author"))
                       (entry_get (entry_published entry) now).

(* ===================================================================== *)
(** * The stages of a cycle of src/discord.py                             *)
(* ===================================================================== *)

(** The world after the feed was selected and the article fetched and both
    were logged. *)
Definition discord_fetched (w : World) (feed_url : str)
  (article : DiscordBot.Article) : World :=
  add_log (INFO, lit "Found article: " ++ DiscordBot.title article)
    (set_clock (S (clock w))
       (add_log (INFO, lit "Selected feed: " ++ feed_url) w)).

(** Then the generation request went out. *)
Definition discord_requested (env : Env) (w : World) (feed_url : str)
  (article : DiscordBot.Article) : World :=
  add_outbox (SentGeneration (DiscordBot.summary_request env article))
    (discord_fetched w feed_url article).

(** Then the summary was logged and the webhook went out. *)
Definition discord_sent (env : Env) (w : World) (feed_url : str)
  (article : DiscordBot.Article) (summary : str) : World :=
  add_outbox (SentWebhook (discord_embed article summary))
    (add_log (INFO, lit "Generated summary: " ++ summary)
       (discord_requested env w feed_url article)).

(** Then the success was logged, the history saved and that logged. *)
Definition discord_recorded (env : Env) (w : World) (feed_url : str)
  (article : DiscordBot.Article) (summary : str) : World :=
  add_log (INFO, lit "Updated article history")
    (snd (DiscordBot.save_history env (DiscordBot.link article)
            (add_log (INFO, lit "Posted to Discord successfully")
               (discord_sent env w feed_url article summary)))).

(** How a cycle ends: with which result and in which world. *)
Inductive cycle_outcome (env : Env) (w : World) : result unit -> World -> Prop :=
| cycle_no_feed e :
    fst (DiscordBot.get_random_feed_url env (lit "rss_feeds.txt") w) = Raise e ->
    cycle_outcome env w (Raise e) w
| cycle_no_article feed_url e :
    fst (DiscordBot.get_random_feed_url env (lit "rss_feeds.txt") w)
    = Ok feed_url ->
    fst (TweetBot.get_latest_article env feed_url w) = Raise e ->
    cycle_outcome env w (Raise e)
      (add_log (INFO, lit "Selected feed: " ++ feed_url) w)
| cycle_no_summary feed_url entry :
    fst (DiscordBot.get_random_feed_url env (lit "rss_feeds.txt") w)
    = Ok feed_url ->
    first_new (posted_articles w) (feedparser_parse env feed_url) = Some entry ->
    let article := discord_article_of entry (isoformat env (clock w)) in
    let response :=
      generation_response env (DiscordBot.summary_request env article) in
    status_code response <> 200%Z ->
    cycle_outcome env w
      (Raise (Exception (lit "Ollama API error: " ++ text response)))
      (discord_requested env w feed_url article)
| cycle_not_published feed_url entry :
    fst (DiscordBot.get_random_feed_url env (lit "rss_feeds.txt") w)
    = Ok feed_url ->
    first_new (posted_articles w) (feedparser_parse env feed_url) = Some entry ->
    let article := discord_article_of entry (isoformat env (clock w)) in
    let response :=
      generation_response env (DiscordBot.summary_request env article) in
    let summary := strip (choices_0_message_content response) in
    status_code response = 200%Z ->
    response_ok (webhook_status env (discord_embed article summary)) = false ->
    cycle_outcome env w
      (Raise (Exception (lit "Error posting to Discord")))
      (discord_sent env w feed_url article summary)
| cycle_published feed_url entry :
    fst (DiscordBot.get_random_feed_url env (lit "rss_feeds.txt") w)
    = Ok feed_url ->
    first_new (posted_articles w) (feedparser_parse env feed_url) = Some entry ->
    let article := discord_article_of entry (isoformat env (clock w)) in
    let response :=
      generation_response env (DiscordBot.summary_request env article) in
    let summary := strip (choices_0_message_content response) in
    status_code response = 200%Z ->
    response_ok (webhook_status env (discord_embed article summary)) = true ->
    cycle_outcome env w (Ok tt)
      (discord_recorded env w feed_url article summary).

(** The world after the body of the loop, from the end of its cycle. *)
Definition after_cycle (r : result unit) (w : World) : World :=
  add_slept DiscordBot.interval
    (add_log (INFO, lit "Sleeping for 3 seconds...")
       (match r with
        | Ok _ => w
        | Raise e =>
            add_log (ERROR, lit "Error in main loop: " ++ str_of_exn e) w
        end)).

(** The cycles that start: those up to the first one whose delay is
    interrupted, that one included. *)
Fixpoint cycles_run (envs : list Env) : nat :=
  match envs with
  | [] => 0
  | env :: rest => if interrupted env then 1 else S (cycles_run rest)
  end.

(* ===================================================================== *)
(** * The stages of the single-shot main                                  *)
(* ===================================================================== *)

(** The world after the history was loaded, the feed selected and the
    article fetched, and both were logged. *)
Definition shot_fetched (w : World) (feed_url : str)
  (article : TweetBot.Article) : World :=
  add_log (INFO, lit "Found article: " ++ TweetBot.title article)
    (add_log (INFO, lit "Selected feed: " ++ feed_url)
       (set_posted_articles (stored_history w) w)).

(** Then the generation request went out. *)
Definition shot_requested (request : Request) (w : World) (feed_url : str)
  (article : TweetBot.Article) : World :=
  add_outbox (SentGeneration request) (shot_fetched w feed_url article).

(** Then the generated text was logged and the tweet went out. *)
Definition shot_sent (request : Request) (w : World) (feed_url : str)
  (article : TweetBot.Article) (tweet posted : str) : World :=
  add_outbox (SentTweet posted)
    (add_log (INFO, lit "Generated tweet: " ++ tweet)
       (shot_requested request w feed_url article)).

(** Then the success was logged, the history saved and that logged. *)
Definition shot_recorded (env : Env) (request : Request) (w : World)
  (feed_url : str) (article : TweetBot.Article) (tweet posted : str) : World :=
  add_log (INFO, lit "Updated article history")
    (snd (TweetBot.save_history env (TweetBot.link article)
            (add_log (INFO, lit "Tweet posted successfully: "
                            ++ json_repr (tweet_response env posted))
               (shot_sent request w feed_url article tweet posted)))).

(** The world in which [main] re-raises [e]. *)
Definition shot_failed (e : exn) (w : World) : World :=
  add_log (ERROR, lit "Error: " ++ str_of_exn e) w.

(** How the single-shot main ends: with which result and in which world. *)
Inductive shot_outcome (request_of : Env -> TweetBot.Article -> Request)
  (label : str) (finish : str -> str -> str) (env : Env) (w : World)
  : result unit -> World -> Prop :=
| shot_no_feed e :
    fst (TweetBot.get_random_feed_url env (lit "rss_feeds.txt") w) = Raise e ->
    shot_outcome request_of label finish env w (Raise e)
      (shot_failed e (set_posted_articles (stored_history w) w))
| shot_no_article feed_url e :
    fst (TweetBot.get_random_feed_url env (lit "rss_feeds.txt") w)
    = Ok feed_url ->
    fst (TweetBot.get_latest_article env feed_url
           (set_posted_articles (stored_history w) w)) = Raise e ->
    shot_outcome request_of label finish env w (Raise e)
      (shot_failed e
         (add_log (INFO, lit "Selected feed: " ++ feed_url)
            (set_posted_articles (stored_history w) w)))
| shot_no_tweet feed_url entry :
    fst (TweetBot.get_random_feed_url env (lit "rss_feeds.txt") w)
    = Ok feed_url ->
    first_new (stored_history w) (feedparser_parse env feed_url) = Some entry ->
    let article := TweetBot.article_of entry in
    let response := generation_response env (request_of env article) in
    status_code response <> 200%Z ->
    shot_outcome request_of label finish env w
      (Raise (Exception (label ++ text response)))
      (shot_failed (Exception (label ++ text response))
         (shot_requested (request_of env article) w feed_url article))
| shot_not_posted feed_url entry :
    fst (TweetBot.get_random_feed_url env (lit "rss_feeds.txt") w)
    = Ok feed_url ->
    first_new (stored_history w) (feedparser_parse env feed_url) = Some entry ->
    let article := TweetBot.article_of entry in
    let response := generation_response env (request_of env article) in
    let tweet := strip (choices_0_message_content response) in
    let posted := finish tweet (TweetBot.link article) in
    status_code response = 200%Z ->
    tweet_status_code (tweet_response env posted) <> 201%Z ->
    shot_outcome request_of label finish env w
      (Raise (Exception (lit "Error posting tweet: "
                         ++ tweet_error_text (tweet_response env posted))))
      (shot_failed (Exception (lit "Error posting tweet: "
                               ++ tweet_error_text (tweet_response env posted)))
         (shot_sent (request_of env article) w feed_url article tweet posted))
| shot_posted feed_url entry :
    fst (TweetBot.get_random_feed_url env (lit "rss_feeds.txt") w)
    = Ok feed_url ->
    first_new (stored_history w) (feedparser_parse env feed_url) = Some entry ->
    let article := TweetBot.article_of entry in
    let response := generation_response env (request_of env article) in
    let tweet := strip (choices_0_message_content response) in
    let posted := finish tweet (TweetBot.link article) in
    status_code response = 200%Z ->
    tweet_status_code (tweet_response env posted) = 201%Z ->
    shot_outcome request_of label finish env w (Ok tt)
      (shot_recorded env (request_of env article) w feed_url article tweet posted).

(* ===================================================================== *)
(** * Facts about the built-ins                                           *)
(* ===================================================================== *)

Module PyFacts.

Lemma str_eqb_eq (a b : str) : str_eqb a b = true <-> a = b.
Proof.
  revert b; induction a as [|x a IH]; intros [|y b]; simpl;
    try (split; [discriminate | discriminate]); try tauto.
  rewrite andb_true_iff, Ascii.eqb_eq, IH.
  split; [intros [-> ->]; reflexivity | intros E; injection E; auto].
Qed.

Lemma str_eqb_refl (a : str) : str_eqb a a = true.
Proof. apply str_eqb_eq; reflexivity. Qed.

Lemma str_eqb_neq (a b : str) : str_eqb a b = false <-> a <> b.
Proof.
  rewrite <- str_eqb_eq. destruct (str_eqb a b); split; congruence.
Qed.

Lemma startswith_spec (s p : str) :
  startswith s p = true <-> exists r, s = p ++ r.
Proof.
  revert s; induction p as [|x p IH]; intros s; simpl.
  - split; [intros _; now exists s | reflexivity].
  - destruct s as [|c s]; simpl.
    + split; [discriminate | intros [r E]; discriminate].
    + rewrite andb_true_iff, Ascii.eqb_eq, IH. split.
      * intros [-> [r ->]]. now exists r.
      * intros [r E]; injection E as -> ->. split; [reflexivity | now exists r].
Qed.

Lemma startswith_app (p r : str) : startswith (p ++ r) p = true.
Proof. apply startswith_spec; eauto. Qed.

Lemma startswith_nil_l (p : str) : p <> [] -> startswith [] p = false.
Proof. destruct p; [congruence | reflexivity]. Qed.

(** A match on a prefix of the text is a match on the text. *)
Lemma startswith_extend (s r p : str) :
  startswith s p = true -> startswith (s ++ r) p = true.
Proof.
  rewrite !startswith_spec. intros [q ->]. exists (q ++ r).
  now rewrite app_assoc.
Qed.

Lemma contains_spec (s sub : str) :
  contains s sub = true <-> exists a b, s = a ++ sub ++ b.
Proof.
  induction s as [|c s IH]; simpl.
  - rewrite orb_false_r, startswith_spec. split.
    + intros [r E]. exists [], r. exact E.
    + intros (a & b & E). symmetry in E.
      apply app_eq_nil in E as [-> E]. apply app_eq_nil in E as [-> ->].
      exists []; reflexivity.
  - rewrite orb_true_iff, startswith_spec, IH. split.
    + intros [[r E] | (a & b & E)].
      * exists [], r. exact E.
      * exists (c :: a), b. now rewrite E.
    + intros ([|x a] & b & E); simpl in E.
      * left; eauto.
      * right. injection E as _ E. eauto.
Qed.

Lemma contains_app (a sub b : str) : contains (a ++ sub ++ b) sub = true.
Proof. apply contains_spec; eauto. Qed.

Lemma contains_nil_l (sub : str) : sub <> [] -> contains [] sub = false.
Proof. intros H. simpl. now rewrite startswith_nil_l. Qed.

Lemma contains_nil_r (s : str) : contains s [] = true.
Proof. destruct s; reflexivity. Qed.

(** ** split, join and replace *)

Lemma split_from_not_nil (sep : str) (skip : nat) (s : str) :
  split_from sep skip s <> [].
Proof.
  revert skip; induction s as [|c s IH]; intros skip; simpl; [discriminate|].
  destruct skip as [|k]; [|apply IH].
  destruct (startswith (c :: s) sep); [discriminate|].
  destruct (split_from sep 0 s); discriminate.
Qed.

Lemma join_cons_head (sep : str) (c : ascii) (pieces : list str) :
  join sep (cons_head c pieces) = c :: join sep pieces.
Proof. destruct pieces as [|p [|q ps]]; reflexivity. Qed.

Lemma join_cons (sep p : str) (pieces : list str) :
  pieces <> [] -> join sep (p :: pieces) = p ++ sep ++ join sep pieces.
Proof. destruct pieces; [congruence | reflexivity]. Qed.

(** [s.replace(old, new) == new.join(s.split(old))] *)
Lemma replace_from_join (old new : str) (skip : nat) (s : str) :
  replace_from old new skip s = join new (split_from old skip s).
Proof.
  revert skip; induction s as [|c s IH]; intros skip; simpl; [reflexivity|].
  destruct skip as [|k]; [|apply IH].
  destruct (startswith (c :: s) old).
  - rewrite join_cons by apply split_from_not_nil. simpl. now rewrite IH.
  - rewrite join_cons_head. now rewrite IH.
Qed.

Lemma replace_join (s old new : str) :
  replace s old new = join new (split s old).
Proof. apply replace_from_join. Qed.

(** [sep.join(s.split(sep)) == s] *)
Lemma join_split_from (sep : str) (skip : nat) (s : str) :
  sep <> [] -> join sep (split_from sep skip s) = skipn skip s.
Proof.
  intros Hsep. revert skip; induction s as [|c s IH]; intros skip; simpl.
  - now destruct skip.
  - destruct skip as [|k]; [|apply IH].
    destruct (startswith (c :: s) sep) eqn:E.
    + rewrite join_cons by apply split_from_not_nil. rewrite IH. simpl.
      apply startswith_spec in E as [r E].
      destruct sep as [|x sep]; [congruence|].
      simpl in E. injection E as -> ->. simpl. rewrite Nat.sub_0_r.
      now rewrite skipn_app, skipn_all, Nat.sub_diag.
    + rewrite join_cons_head, IH. reflexivity.
Qed.

Lemma join_split (s sep : str) : sep <> [] -> join sep (split s sep) = s.
Proof. intros H. unfold split. now rewrite join_split_from. Qed.

(** The first piece is a prefix of the text. *)
Lemma split_from_head_prefix (sep s : str) :
  exists p ps r, split_from sep 0 s = p :: ps /\ s = p ++ r.
Proof.
  induction s as [|c s (p & ps & r & E & Es)]; simpl.
  - exists [], [], []; auto.
  - destruct (startswith (c :: s) sep).
    + exists [], (split_from sep (length sep - 1) s), (c :: s); auto.
    + rewrite E. simpl. exists (c :: p), ps, r. now rewrite Es at 1.
Qed.

(** No piece of a split holds the separator. *)
Lemma split_from_free (sep : str) (skip : nat) (s : str) :
  sep <> [] ->
  Forall (fun p => contains p sep = false) (split_from sep skip s).
Proof.
  intros Hsep. revert skip; induction s as [|c s IH]; intros skip; simpl.
  - constructor; [now apply contains_nil_l | constructor].
  - destruct skip as [|k]; [|apply IH].
    destruct (startswith (c :: s) sep) eqn:E.
    + constructor; [now apply contains_nil_l | apply IH].
    + destruct (split_from_head_prefix sep s) as (p & ps & r & Ep & Es).
      specialize (IH 0). rewrite Ep in *. simpl.
      inversion IH as [|? ? Hp Hps]; subst.
      constructor; [|assumption].
      simpl. rewrite Hp, orb_false_r.
      destruct (startswith (c :: p) sep) eqn:E'; [|reflexivity].
      apply (startswith_extend _ r) in E'. simpl in E'. congruence.
Qed.

Lemma split_free (s sep : str) :
  sep <> [] -> Forall (fun p => contains p sep = false) (split s sep).
Proof. apply split_from_free. Qed.

(** Where [old] occurs, the replaced text holds [new]. *)
Lemma replace_contains_new (s old new : str) :
  old <> [] ->
  contains s old = true -> contains (replace s old new) new = true.
Proof.
  intros Hold. unfold replace. induction s as [|c s IH].
  - now rewrite contains_nil_l.
  - cbn [contains replace_from]. destruct (startswith (c :: s) old); simpl.
    + intros _. apply (contains_app []).
    + intros H. apply IH in H.
      change (startswith (c :: replace_from old new 0 s) new
              || contains (replace_from old new 0 s) new = true).
      rewrite H. apply orb_true_r.
Qed.

End PyFacts.

(* ===================================================================== *)
(** * The article fetcher                                                 *)
(* ===================================================================== *)

Module FetcherFacts.

Import PyFacts.

Lemma any_url_eq_true (history : list HistoryRecord) (link : str) :
  any_url_eq history link = true <-> in_history history link.
Proof.
  unfold any_url_eq, in_history. rewrite existsb_exists.
  split; intros (post & Hin & E); exists post; split; auto;
    now apply str_eqb_eq.
Qed.

Lemma any_url_eq_false (history : list HistoryRecord) (link : str) :
  any_url_eq history link = false <-> ~ in_history history link.
Proof.
  rewrite <- any_url_eq_true. destruct (any_url_eq history link);
    split; congruence.
Qed.

Lemma first_unposted_link posted feed_url entries a :
  TweetBot.first_unposted posted feed_url entries = Ok a ->
  ~ in_history posted (TweetBot.link a)
  /\ exists e, In e entries /\ a = TweetBot.article_of e.
Proof.
  induction entries as [|e entries IH]; simpl; [discriminate|].
  destruct (any_url_eq posted (entry_link e)) eqn:E; simpl.
  - intros H. destruct (IH H) as (Hn & x & Hin & ->). split; [assumption|].
    exists x; auto.
  - intros H. injection H as <-. split.
    + now apply any_url_eq_false.
    + exists e; auto.
Qed.

Lemma get_latest_article_empty env feed_url w :
  feedparser_parse env feed_url = [] ->
  TweetBot.get_latest_article env feed_url w
  = (Raise (Exception (lit "No entries found in feed: " ++ feed_url)), w).
Proof. unfold TweetBot.get_latest_article. now intros ->. Qed.

Lemma get_latest_article_scan env feed_url w :
  feedparser_parse env feed_url <> [] ->
  TweetBot.get_latest_article env feed_url w
  = (TweetBot.first_unposted (posted_articles w) feed_url
       (feedparser_parse env feed_url), w).
Proof.
  unfold TweetBot.get_latest_article.
  destruct (feedparser_parse env feed_url); [congruence | reflexivity].
Qed.

Lemma get_latest_article_world env feed_url w :
  snd (TweetBot.get_latest_article env feed_url w) = w.
Proof.
  unfold TweetBot.get_latest_article.
  destruct (feedparser_parse env feed_url); reflexivity.
Qed.

(** ** The scan over the entries as feedparser gives them *)

Lemma any_link_some posted entry link :
  ParsedFeed.raw_link entry = Some link ->
  ParsedFeed.any_url_eq_link posted entry = Ok (any_url_eq posted link).
Proof.
  intros E. induction posted as [|post posted IH]; simpl; [reflexivity|].
  rewrite E. simpl. destruct (str_eqb (url post) link); [reflexivity | exact IH].
Qed.

Lemma any_link_posted history entry :
  ParsedFeed.posted_entry history entry ->
  ParsedFeed.any_url_eq_link history entry = Ok true.
Proof.
  intros (link & E & Hin). rewrite (any_link_some _ _ _ E).
  apply any_url_eq_true in Hin. now rewrite Hin.
Qed.

Lemma raw_scan_passes_posted history feed_url seen rest :
  Forall (ParsedFeed.posted_entry history) seen ->
  ParsedFeed.first_unposted history feed_url (seen ++ rest)
  = ParsedFeed.first_unposted history feed_url rest.
Proof.
  induction 1 as [|e seen He _ IH]; [reflexivity|].
  cbn [app ParsedFeed.first_unposted]. rewrite (any_link_posted _ _ He).
  exact IH.
Qed.

Lemma raw_scan_lacks history feed_url entry rest :
  ParsedFeed.lacks_attribute history entry ->
  exists name,
    ParsedFeed.first_unposted history feed_url (entry :: rest)
    = Raise (AttributeError (lit "object has no attribute '" ++ name ++ lit "'")).
Proof.
  intros [E | (link & E & Hn & Et)]; cbn [ParsedFeed.first_unposted].
  - destruct history as [|post history].
    + cbn. unfold ParsedFeed.article_of. rewrite E.
      destruct (ParsedFeed.raw_title entry); cbn.
      * now exists (lit "link").
      * now exists (lit "title").
    + cbn. rewrite E. cbn. now exists (lit "link").
  - rewrite (any_link_some _ _ _ E). apply any_url_eq_false in Hn.
    rewrite Hn. cbn. unfold ParsedFeed.article_of. rewrite Et. cbn.
    now exists (lit "title").
Qed.

Lemma raw_get_latest_article_scan parse feed_url w :
  parse feed_url <> [] ->
  ParsedFeed.get_latest_article parse feed_url w
  = (ParsedFeed.first_unposted (posted_articles w) feed_url (parse feed_url), w).
Proof.
  unfold ParsedFeed.get_latest_article.
  destruct (parse feed_url); [congruence | reflexivity].
Qed.

(** On entries that carry their title and their link, the scan is the one
    of [TweetBot.get_latest_article]. *)
Lemma raw_first_unposted_complete posted feed_url entries :
  ParsedFeed.first_unposted posted feed_url (map ParsedFeed.complete entries)
  = TweetBot.first_unposted posted feed_url entries.
Proof.
  induction entries as [|e entries IH]; [reflexivity|].
  cbn [map ParsedFeed.first_unposted TweetBot.first_unposted].
  rewrite (any_link_some posted (ParsedFeed.complete e) (entry_link e) eq_refl).
  cbn [bind_result]. destruct (negb (any_url_eq posted (entry_link e)));
    [reflexivity | exact IH].
Qed.

Lemma raw_get_latest_article_complete env feed_url w :
  ParsedFeed.get_latest_article
    (fun u => map ParsedFeed.complete (feedparser_parse env u)) feed_url w
  = TweetBot.get_latest_article env feed_url w.
Proof.
  unfold ParsedFeed.get_latest_article, TweetBot.get_latest_article.
  destruct (feedparser_parse env feed_url) as [|e es] eqn:E; [reflexivity|].
  cbn [map]. unfold bind, gets, lift.
  change (ParsedFeed.complete e :: map ParsedFeed.complete es)
    with (map ParsedFeed.complete (e :: es)).
  now rewrite raw_first_unposted_complete.
Qed.

(** C1, as the code has it.  [get_latest_article] leaves the world as it
    is.  On a feed without entries it raises "No entries found".  Otherwise
    it scans the entries in source order and passes over those whose link
    is the url of a history record: the first entry whose link is the url of
    no record is returned as an article with its title, link, description
    and content, when it has a title; when every entry has a link that is
    the url of a record, it raises "No new articles found"; and when the
    scan reaches an entry without link, or stops at an entry without title,
    it raises AttributeError and returns no later entry. *)
Theorem get_latest_article_scan_contract
  (parse : str -> list ParsedFeed.RawEntry) (feed_url : str) (w : World) :
  let history := posted_articles w in
  let entries := parse feed_url in
  let r := ParsedFeed.get_latest_article parse feed_url w in
  snd r = w
  /\ (entries = [] ->
      fst r = Raise (Exception (lit "No entries found in feed: " ++ feed_url)))
  /\ (forall seen entry rest link title,
        entries = seen ++ entry :: rest ->
        Forall (ParsedFeed.posted_entry history) seen ->
        ParsedFeed.raw_link entry = Some link ->
        ~ in_history history link ->
        ParsedFeed.raw_title entry = Some title ->
        fst r = Ok (TweetBot.mkArticle
                      title link
                      (entry_get (ParsedFeed.raw_description entry) [])
                      (value (fst (entry_get (ParsedFeed.raw_content entry)
                                             (mkContentItem [], []))))))
  /\ (entries <> [] ->
      Forall (ParsedFeed.posted_entry history) entries ->
      fst r = Raise (Exception (lit "No new articles found in feed: " ++ feed_url)))
  /\ (forall seen entry rest,
        entries = seen ++ entry :: rest ->
        Forall (ParsedFeed.posted_entry history) seen ->
        ParsedFeed.lacks_attribute history entry ->
        exists name,
          fst r = Raise (AttributeError (lit "object has no attribute '"
                                         ++ name ++ lit "'"))).
Proof.
  cbv zeta. split; [|split; [|split; [|split]]].
  - unfold ParsedFeed.get_latest_article. destruct (parse feed_url); reflexivity.
  - intros E. unfold ParsedFeed.get_latest_article. now rewrite E.
  - intros seen entry rest link title E Hseen El Hn Et.
    rewrite raw_get_latest_article_scan by (rewrite E; now destruct seen).
    cbn [fst]. rewrite E, raw_scan_passes_posted by assumption.
    cbn [ParsedFeed.first_unposted]. rewrite (any_link_some _ _ _ El).
    apply any_url_eq_false in Hn. rewrite Hn. cbn [bind_result negb].
    unfold ParsedFeed.article_of. rewrite Et, El. reflexivity.
  - intros Hne Hall. rewrite raw_get_latest_article_scan by assumption.
    cbn [fst]. rewrite <- (app_nil_r (parse feed_url)).
    now rewrite raw_scan_passes_posted.
  - intros seen entry rest E Hseen Hl.
    rewrite raw_get_latest_article_scan by (rewrite E; now destruct seen).
    cbn [fst]. rewrite E, raw_scan_passes_posted by assumption.
    now apply raw_scan_lacks.
Qed.

(** The scenario of the specification: the feed holds A and B and the
    history holds A, so B is returned. *)
Lemma get_latest_article_scan_contract_witness :
  fst (ParsedFeed.get_latest_article Samples.raw_feed_AB
         (lit "http://example.com/feed.xml") Samples.worldA)
  = Ok (TweetBot.mkArticle (lit "Title B") (lit "B") (lit "about B")
                           (lit "body B")).
Proof.
  apply (proj1 (proj2 (proj2
           (get_latest_article_scan_contract Samples.raw_feed_AB
              (lit "http://example.com/feed.xml") Samples.worldA)))
           [ParsedFeed.complete Samples.entryA] (ParsedFeed.complete Samples.entryB)
           [] (lit "B") (lit "Title B")).
  - reflexivity.
  - constructor; [|constructor]. exists (lit "A"). split; [reflexivity|].
    apply any_url_eq_true. reflexivity.
  - reflexivity.
  - apply any_url_eq_false. reflexivity.
  - reflexivity.
Defined.

(** C1 as it is stated fails on a feed whose first item has no link: B is
    the first entry whose link is the url of no record, the entry before it
    has no such link, and yet B is not returned: reading the link of the
    first item raises AttributeError. *)
Lemma get_latest_article_first_unseen_not_returned :
  let history := posted_articles Samples.worldA in
  let entries := Samples.raw_feed_no_link (lit "http://example.com/feed.xml") in
  let r := ParsedFeed.get_latest_article Samples.raw_feed_no_link
             (lit "http://example.com/feed.xml") Samples.worldA in
  exists first_unseen,
    entries = [Samples.raw_no_link; first_unseen]
    /\ ParsedFeed.raw_link first_unseen = Some (lit "B")
    /\ ~ in_history history (lit "B")
    /\ ~ (exists link, ParsedFeed.raw_link Samples.raw_no_link = Some link
                       /\ ~ in_history history link)
    /\ fst r <> Ok (TweetBot.mkArticle (lit "Title B") (lit "B")
                                       (lit "about B") (lit "body B"))
    /\ fst r = Raise (AttributeError (lit "object has no attribute 'link'")).
Proof.
  cbv zeta. exists (ParsedFeed.complete Samples.entryB).
  split; [reflexivity|]. split; [reflexivity|].
  split; [apply any_url_eq_false; reflexivity|].
  split; [intros (link & E & _); discriminate|].
  split; [discriminate | reflexivity].
Qed.

(** C2. A url of the history is never returned: when a record of the
    history has url U, no feed makes [get_latest_article] return an article
    whose link is U; and a link is the link of an article some feed gets
    returned exactly when no record of the history has it as url. *)
Theorem posted_url_never_returned (w : World) (U : str) :
  (in_history (posted_articles w) U ->
   forall env feed_url a,
     fst (TweetBot.get_latest_article env feed_url w) = Ok a ->
     TweetBot.link a <> U)
  /\ ((exists env feed_url a,
         fst (TweetBot.get_latest_article env feed_url w) = Ok a
         /\ TweetBot.link a = U)
      <-> ~ in_history (posted_articles w) U).
Proof.
  assert (Hret : forall env feed_url a,
             fst (TweetBot.get_latest_article env feed_url w) = Ok a ->
             ~ in_history (posted_articles w) (TweetBot.link a)).
  { intros env feed_url a H.
    destruct (feedparser_parse env feed_url) eqn:E.
    - rewrite get_latest_article_empty in H by assumption. discriminate.
    - rewrite get_latest_article_scan in H by congruence.
      now apply first_unposted_link in H. }
  split; [|split].
  - intros Hin env feed_url a H E. subst U. now apply (Hret env feed_url a).
  - intros (env & feed_url & a & H & <-). now apply (Hret env feed_url a).
  - intros Hnew.
    exists (mkEnv [] 0 (fun _ => [mkEntry [] U None None None None])
                  (fun _ => []) (fun _ => mkResponse 0 [] [])
                  (fun _ => mkTweetResponse 0 [] []) (fun _ => 0%Z) false),
           [], (TweetBot.mkArticle [] U [] []).
    split; [|reflexivity].
    unfold TweetBot.get_latest_article. simpl.
    apply any_url_eq_false in Hnew. now rewrite Hnew.
Qed.

(** The history holds A and the feed holds A and B: what is returned, B,
    is not A. *)
Lemma posted_url_never_returned_witness :
  TweetBot.link (TweetBot.mkArticle (lit "Title B") (lit "B") (lit "about B")
                                    (lit "body B"))
  <> lit "A".
Proof.
  apply (proj1 (posted_url_never_returned Samples.worldA (lit "A"))
           (ex_intro _ (mkHistoryRecord (lit "A") (lit "2024-04-30T08:00:00"))
                     (conj (or_introl eq_refl) eq_refl))
           Samples.env_ok (lit "http://example.com/feed.xml")).
  reflexivity.
Defined.

End FetcherFacts.

(* ===================================================================== *)
(** * The history store                                                   *)
(* ===================================================================== *)

Module HistoryFacts.

Import PyFacts.

Lemma save_history_run env article_url w :
  TweetBot.save_history env article_url w =
  (Ok tt,
   mkWorld (feed_files w)
           (Some (posted_articles w
                  ++ [mkHistoryRecord article_url (isoformat env (clock w))]))
           (posted_articles w
            ++ [mkHistoryRecord article_url (isoformat env (clock w))])
           (S (clock w)) (log w) (outbox w) (slept w)).
Proof. reflexivity. Qed.

Lemma load_history_file w doc :
  history_file w = Some doc -> TweetBot.load_history w = (Ok doc, w).
Proof. unfold TweetBot.load_history. now intros ->. Qed.

Lemma count_url_app history more link :
  count_url (history ++ more) link = count_url history link + count_url more link.
Proof. unfold count_url. now rewrite filter_app, length_app. Qed.

(** C5. The store does not deduplicate: after [save_history(U)] twice,
    [load_history] gives the starting records followed by two records of
    url U, one for each call, so U has two records more than it had. *)
Theorem save_history_twice_keeps_both (env1 env2 : Env) (U : str) (w : World) :
  let w1 := snd (TweetBot.save_history env1 U w) in
  let w2 := snd (TweetBot.save_history env2 U w1) in
  exists loaded,
    fst (TweetBot.load_history w2) = Ok loaded
    /\ loaded = posted_articles w
                ++ [mkHistoryRecord U (isoformat env1 (clock w));
                    mkHistoryRecord U (isoformat env2 (S (clock w)))]
    /\ count_url loaded U = count_url (posted_articles w) U + 2.
Proof.
  cbv zeta. rewrite !save_history_run. simpl.
  eexists. split; [reflexivity|]. rewrite <- app_assoc. simpl.
  split; [reflexivity|].
  rewrite count_url_app. f_equal.
  unfold count_url. cbn [filter url]. now rewrite str_eqb_refl.
Qed.

(** C6. Round trip: after [save_history(U)], [load_history] on any world
    whose history file is the one just written gives the whole list, the
    starting records followed by a last record with url U and the timestamp
    that was written. *)
Theorem save_history_load_history_roundtrip
  (env : Env) (U : str) (w w' : World) :
  history_file w' = history_file (snd (TweetBot.save_history env U w)) ->
  let written := mkHistoryRecord U (isoformat env (clock w)) in
  fst (TweetBot.load_history w') = Ok (posted_articles w ++ [written])
  /\ posted_articles (snd (TweetBot.save_history env U w))
     = posted_articles w ++ [written]
  /\ (forall loaded, fst (TweetBot.load_history w') = Ok loaded ->
       last loaded written = written
       /\ url (last loaded written) = U
       /\ date (last loaded written) = isoformat env (clock w)).
Proof.
  rewrite save_history_run. simpl. intros Hfile. cbv zeta.
  rewrite (load_history_file _ _ Hfile). simpl.
  split; [reflexivity|]. split; [reflexivity|].
  intros loaded E. injection E as <-. rewrite last_last. auto.
Qed.

(** A later run of the bot, started on the file the earlier one wrote. *)
Lemma save_history_load_history_roundtrip_witness :
  fst (TweetBot.load_history
         (Samples.world_with Samples.feed_list
            (Samples.historyA
             ++ [mkHistoryRecord (lit "B") (Samples.stamp 0)])))
  = Ok (Samples.historyA ++ [mkHistoryRecord (lit "B") (Samples.stamp 0)]).
Proof.
  apply (save_history_load_history_roundtrip Samples.env_ok (lit "B")
           Samples.worldA
           (Samples.world_with Samples.feed_list
              (Samples.historyA
               ++ [mkHistoryRecord (lit "B") (Samples.stamp 0)]))).
  reflexivity.
Defined.

End HistoryFacts.

(* ===================================================================== *)
(** * The feed selector                                                   *)
(* ===================================================================== *)

Module SelectorFacts.

Import PyFacts.

Lemma tweet_get_random_feed_url_run env file_path w text :
  feed_files w file_path = Some text ->
  TweetBot.get_random_feed_url env file_path w
  = (bind_result (TweetBot.valid_feeds_loop (splitlines text) [])
       (random_choice (draw env)), w).
Proof.
  intros E. unfold TweetBot.get_random_feed_url, bind, read_text, lift.
  rewrite E.
  destruct (TweetBot.valid_feeds_loop (splitlines text) []); reflexivity.
Qed.

Lemma discord_get_random_feed_url_run env file_path w text :
  feed_files w file_path = Some text ->
  DiscordBot.get_random_feed_url env file_path w
  = (bind_result (DiscordBot.valid_feeds_loop (splitlines text) [])
       (random_choice (draw env)), w).
Proof.
  intros E. unfold DiscordBot.get_random_feed_url, bind, read_text, lift.
  rewrite E.
  destruct (DiscordBot.valid_feeds_loop (splitlines text) []); reflexivity.
Qed.

Lemma dropped_guard line :
  dropped line -> truthy line && negb (startswith line (lit "#")) = false.
Proof.
  intros [-> | E]; [reflexivity|]. rewrite E. apply andb_false_r.
Qed.

Lemma tweet_loop_all_dropped feeds valid_feeds :
  Forall dropped feeds -> TweetBot.valid_feeds_loop feeds valid_feeds = Ok valid_feeds.
Proof.
  induction 1 as [|line feeds Hl _ IH]; [reflexivity|].
  cbn [TweetBot.valid_feeds_loop]. now rewrite dropped_guard.
Qed.

Lemma discord_loop_all_dropped feeds valid_feeds :
  Forall dropped feeds ->
  DiscordBot.valid_feeds_loop feeds valid_feeds = Ok valid_feeds.
Proof.
  induction 1 as [|line feeds Hl _ IH]; [reflexivity|].
  cbn [DiscordBot.valid_feeds_loop]. now rewrite dropped_guard.
Qed.

(** C4. When every line of the feed list is empty or begins with '#', so
    that no line is kept, [get_random_feed_url] raises the IndexError of
    [random.choice] on an empty sequence, whatever the draw: it returns no
    value.  This holds for the '!' variant and for the whitespace variant. *)
Theorem get_random_feed_url_empty_raises
  (env : Env) (file_path text : str) (w : World) :
  feed_files w file_path = Some text ->
  Forall dropped (splitlines text) ->
  TweetBot.get_random_feed_url env file_path w
  = (Raise (IndexError (lit "Cannot choose from an empty sequence")), w)
  /\ DiscordBot.get_random_feed_url env file_path w
     = (Raise (IndexError (lit "Cannot choose from an empty sequence")), w).
Proof.
  intros E Hall. split.
  - rewrite (tweet_get_random_feed_url_run _ _ _ _ E).
    now rewrite tweet_loop_all_dropped.
  - rewrite (discord_get_random_feed_url_run _ _ _ _ E).
    now rewrite discord_loop_all_dropped.
Qed.

Lemma get_random_feed_url_empty_raises_witness :
  let w := Samples.world_with Samples.feed_list_unusable [] in
  TweetBot.get_random_feed_url Samples.env_ok (lit "rss_feeds.txt") w
  = (Raise (IndexError (lit "Cannot choose from an empty sequence")), w)
  /\ DiscordBot.get_random_feed_url Samples.env_ok (lit "rss_feeds.txt") w
     = (Raise (IndexError (lit "Cannot choose from an empty sequence")), w).
Proof.
  apply (get_random_feed_url_empty_raises Samples.env_ok (lit "rss_feeds.txt")
           Samples.feed_list_unusable).
  - reflexivity.
  - change (Forall dropped
              [lit "# comment"; []; lit "#http://example.com/feed.xml"]).
    repeat (constructor; [first [left; reflexivity | right; reflexivity]|]).
    constructor.
Defined.

(** ** Lines of whitespace *)

Lemma split_ws_all_space (line : str) :
  Forall (fun c => isspace c = true) line -> split_ws line = [].
Proof.
  unfold split_ws. induction 1 as [|c line Hc _ IH]; [reflexivity|].
  cbn [split_ws_from]. now rewrite Hc.
Qed.

Lemma space_line_guard (line : str) :
  line <> [] -> Forall (fun c => isspace c = true) line ->
  truthy line && negb (startswith line (lit "#")) = true.
Proof.
  intros Hne Hall. destruct Hall as [|c line Hc _]; [congruence|].
  simpl. destruct (Ascii.eqb c "#") eqn:E; [|reflexivity].
  apply Ascii.eqb_eq in E. subst c. discriminate.
Qed.

Lemma discord_loop_space_line feeds valid_feeds line :
  In line feeds -> line <> [] -> Forall (fun c => isspace c = true) line ->
  DiscordBot.valid_feeds_loop feeds valid_feeds
  = Raise (IndexError (lit "list index out of range")).
Proof.
  intros Hin Hne Hall. revert valid_feeds.
  induction feeds as [|l feeds IH]; intros valid_feeds; [destruct Hin|].
  cbn [DiscordBot.valid_feeds_loop].
  destruct Hin as [-> | Hin].
  - rewrite space_line_guard, split_ws_all_space by assumption. reflexivity.
  - destruct (truthy l && negb (startswith l (lit "#"))); [|now apply IH].
    unfold getitem. destruct (nth_error (split_ws l) 0); simpl;
      [now apply IH | reflexivity].
Qed.

(** C10. In the whitespace variants (discord, slack), a feed list with a
    line that is not empty and holds whitespace only makes
    [get_random_feed_url] raise IndexError, whatever the draw: the line
    passes the filter, [line.split()] is the empty list and its first
    element is read. *)
Theorem whitespace_line_raises_IndexError
  (env : Env) (file_path text line : str) (w : World) :
  feed_files w file_path = Some text ->
  In line (splitlines text) ->
  line <> [] ->
  Forall (fun c => isspace c = true) line ->
  split_ws line = []
  /\ DiscordBot.get_random_feed_url env file_path w
     = (Raise (IndexError (lit "list index out of range")), w)
  /\ SlackBot.get_random_feed_url env file_path w
     = (Raise (IndexError (lit "list index out of range")), w).
Proof.
  intros E Hin Hne Hall.
  split; [now apply split_ws_all_space|].
  assert (H : DiscordBot.get_random_feed_url env file_path w
              = (Raise (IndexError (lit "list index out of range")), w)).
  { rewrite (discord_get_random_feed_url_run _ _ _ _ E).
    now rewrite (discord_loop_space_line _ _ line). }
  split; exact H.
Qed.

Lemma whitespace_line_raises_IndexError_witness :
  let w := Samples.world_with Samples.feed_list_space [] in
  split_ws (lit " ") = []
  /\ DiscordBot.get_random_feed_url Samples.env_ok (lit "rss_feeds.txt") w
     = (Raise (IndexError (lit "list index out of range")), w)
  /\ SlackBot.get_random_feed_url Samples.env_ok (lit "rss_feeds.txt") w
     = (Raise (IndexError (lit "list index out of range")), w).
Proof.
  apply (whitespace_line_raises_IndexError Samples.env_ok (lit "rss_feeds.txt")
           Samples.feed_list_space (lit " ")).
  - reflexivity.
  - right; left; reflexivity.
  - discriminate.
  - repeat constructor.
Defined.

(** C3, at two feed lists that have a usable line.  With the second line
    drawn, the '!' variant returns the empty string for a line of one space,
    and both variants return a string that begins with '#' for a comment
    written after a space. *)
Theorem get_random_feed_url_blank_or_comment :
  let rss := lit "rss_feeds.txt" in
  let env := Samples.env_with 1 200 in
  let w1 := Samples.world_with Samples.feed_list_space [] in
  let w2 := Samples.world_with Samples.feed_list_indented_comment [] in
  splitlines Samples.feed_list_space = [lit "http://example.com/feed.xml"; lit " "]
  /\ fst (TweetBot.get_random_feed_url env rss w1) = Ok []
  /\ splitlines Samples.feed_list_indented_comment
     = [lit "http://example.com/feed.xml"; lit " # off"]
  /\ fst (TweetBot.get_random_feed_url env rss w2) = Ok (lit "# off")
  /\ fst (DiscordBot.get_random_feed_url env rss w2) = Ok (lit "#")
  /\ fst (SlackBot.get_random_feed_url env rss w2) = Ok (lit "#").
Proof. repeat split. Qed.

End SelectorFacts.

(* ===================================================================== *)
(** * The monad                                                           *)
(* ===================================================================== *)

Module MonadFacts.

Lemma bind_ok {A B} (m : M A) (k : A -> M B) w a w' :
  m w = (Ok a, w') -> bind m k w = k a w'.
Proof. unfold bind. now intros ->. Qed.

Lemma bind_raise {A B} (m : M A) (k : A -> M B) w e w' :
  m w = (Raise e, w') -> bind m k w = (Raise e, w').
Proof. unfold bind. now intros ->. Qed.

Lemma bind_modify {B} (f : World -> World) (k : unit -> M B) w :
  bind (modify f) k w = k tt (f w).
Proof. reflexivity. Qed.

Lemma only_Exception_ret {A} (a : A) : raises_only_Exception (ret a).
Proof. intros w e. discriminate. Qed.

Lemma only_Exception_modify f : raises_only_Exception (modify f).
Proof. intros w e. discriminate. Qed.

Lemma only_Exception_gets {A} (f : World -> A) : raises_only_Exception (gets f).
Proof. intros w e. discriminate. Qed.

Lemma only_Exception_raise {A} e :
  is_Exception e = true -> raises_only_Exception (@raise A e).
Proof. intros H w e'. simpl. intros E. injection E as <-. exact H. Qed.

Lemma only_Exception_bind {A B} (m : M A) (k : A -> M B) :
  raises_only_Exception m -> (forall a, raises_only_Exception (k a)) ->
  raises_only_Exception (bind m k).
Proof.
  intros Hm Hk w e. unfold bind. specialize (Hm w).
  destruct (m w) as [[a|e'] w']; simpl in *.
  - apply Hk.
  - intros E. injection E as <-. now apply Hm.
Qed.

Lemma only_Exception_lift {A} (r : result A) :
  (forall e, r = Raise e -> is_Exception e = true) ->
  raises_only_Exception (lift r).
Proof. intros H w e. simpl. apply H. Qed.

Create HintDb only_exception.

#[export] Hint Resolve only_Exception_ret only_Exception_modify
  only_Exception_gets only_Exception_bind : only_exception.

End MonadFacts.

(* ===================================================================== *)
(** * The summarizer                                                      *)
(* ===================================================================== *)

Module SummarizerFacts.

Import MonadFacts.

Lemma truncated_cases (c : str) :
  let sent := slice_to c 500 ++ (if 500 <? length c then lit "..." else []) in
  (length c <= 500 /\ sent = c)
  \/ (500 < length c /\ sent = firstn 500 c ++ lit "..."
      /\ length (firstn 500 c) = 500).
Proof.
  cbv zeta. unfold slice_to. destruct (Nat.ltb_spec 500 (length c)) as [H|H].
  - right. split; [assumption|]. split; [reflexivity|].
    apply firstn_length_le. now apply Nat.lt_le_incl.
  - left. split; [assumption|]. rewrite app_nil_r. now apply firstn_all2.
Qed.

Lemma discord_generate_summary_run env article w :
  DiscordBot.generate_summary env article w =
  (let response :=
     generation_response env (DiscordBot.summary_request env article) in
   if (status_code response =? 200)%Z
   then Ok (strip (choices_0_message_content response))
   else Raise (Exception (lit "Ollama API error: " ++ text response)),
   add_outbox (SentGeneration (DiscordBot.summary_request env article)) w).
Proof.
  unfold DiscordBot.generate_summary. rewrite bind_modify. cbv zeta.
  destruct (status_code _ =? 200)%Z; reflexivity.
Qed.

Lemma slack_generate_summary_run env article w :
  SlackBot.generate_summary env article w =
  (let response :=
     generation_response env (SlackBot.summary_request env article) in
   if (status_code response =? 200)%Z
   then Ok (strip (choices_0_message_content response))
   else Raise (Exception (lit "Ollama API error: " ++ text response)),
   add_outbox (SentGeneration (SlackBot.summary_request env article)) w).
Proof.
  unfold SlackBot.generate_summary. rewrite bind_modify. cbv zeta.
  destruct (status_code _ =? 200)%Z; reflexivity.
Qed.

(** C7. The content [generate_summary] sends: one request goes out, its
    user message is the title line followed by "Content: " and the stripped
    concatenation of description, a space and content, which is sent as it
    is when it has at most 500 characters, and cut to its first 500
    characters followed by "..." when it has more.  The discord and the
    slack variant send the same user message. *)
Theorem generate_summary_truncates (env : Env) (article : DiscordBot.Article)
  (w : World) :
  let combined :=
    strip (DiscordBot.description article ++ lit " "
           ++ DiscordBot.content article) in
  let sent := DiscordBot.truncated_content article in
  let user_message :=
    mkChatMessage (lit "user")
      (lit "Title: " ++ DiscordBot.title article ++ newline
       ++ lit "Content: " ++ sent) in
  ((length combined <= 500 /\ sent = combined)
   \/ (500 < length combined /\ sent = firstn 500 combined ++ lit "..."
       /\ length (firstn 500 combined) = 500))
  /\ outbox (snd (DiscordBot.generate_summary env article w))
     = outbox w ++ [SentGeneration (DiscordBot.summary_request env article)]
  /\ messages (DiscordBot.summary_request env article)
     = [mkChatMessage (lit "system") DiscordBot.system_prompt; user_message]
  /\ outbox (snd (SlackBot.generate_summary env article w))
     = outbox w ++ [SentGeneration (SlackBot.summary_request env article)]
  /\ messages (SlackBot.summary_request env article)
     = [mkChatMessage (lit "system") SlackBot.system_prompt; user_message].
Proof.
  cbv zeta. split; [apply truncated_cases|].
  rewrite discord_generate_summary_run, slack_generate_summary_run.
  repeat split.
Qed.

(** C9, the summarizer: the response decides the result. *)
Lemma generate_summary_result env article w :
  let response :=
    generation_response env (DiscordBot.summary_request env article) in
  (status_code response = 200%Z ->
   fst (DiscordBot.generate_summary env article w)
   = Ok (strip (choices_0_message_content response)))
  /\ (status_code response <> 200%Z ->
      fst (DiscordBot.generate_summary env article w)
      = Raise (Exception (lit "Ollama API error: " ++ text response)))
  /\ ((exists e, fst (DiscordBot.generate_summary env article w) = Raise e)
      <-> status_code response <> 200%Z).
Proof.
  cbv zeta. rewrite discord_generate_summary_run. cbv zeta. simpl fst.
  destruct (Z.eqb_spec
              (status_code (generation_response env
                              (DiscordBot.summary_request env article))) 200)
    as [E|E].
  - split; [reflexivity|]. split; [congruence|].
    split; [intros [e H]; discriminate | congruence].
  - split; [congruence|]. split; [reflexivity|].
    split; [auto | intros _; eexists; reflexivity].
Qed.

End SummarizerFacts.

(* ===================================================================== *)
(** * The run loop of src/discord.py                                      *)
(* ===================================================================== *)

Module LoopFacts.

Import MonadFacts SummarizerFacts.

Lemma getitem_raises {A} (l : list A) i e :
  getitem l i = Raise e -> is_Exception e = true.
Proof.
  unfold getitem. destruct (nth_error l i); [discriminate|].
  intros E. injection E as <-. reflexivity.
Qed.

Lemma random_choice_raises {A} n (l : list A) e :
  random_choice n l = Raise e -> is_Exception e = true.
Proof.
  destruct l; simpl.
  - intros E. injection E as <-. reflexivity.
  - apply getitem_raises.
Qed.

Lemma discord_loop_raises feeds valid_feeds e :
  DiscordBot.valid_feeds_loop feeds valid_feeds = Raise e ->
  is_Exception e = true.
Proof.
  revert valid_feeds. induction feeds as [|line feeds IH]; intros valid_feeds;
    cbn [DiscordBot.valid_feeds_loop]; [discriminate|].
  destruct (truthy line && negb (startswith line (lit "#"))); [|apply IH].
  destruct (getitem (split_ws line) 0) eqn:E; simpl; [apply IH|].
  intros H. injection H as <-. now apply getitem_raises in E.
Qed.

Lemma read_text_only_Exception path : raises_only_Exception (read_text path).
Proof.
  intros w e. unfold read_text. destruct (feed_files w path); simpl.
  - discriminate.
  - intros E. injection E as <-. reflexivity.
Qed.

Lemma get_random_feed_url_only_Exception env path :
  raises_only_Exception (DiscordBot.get_random_feed_url env path).
Proof.
  unfold DiscordBot.get_random_feed_url.
  apply only_Exception_bind; [apply read_text_only_Exception | intros text].
  apply only_Exception_bind.
  - apply only_Exception_lift. apply discord_loop_raises.
  - intros l. apply only_Exception_lift. apply random_choice_raises.
Qed.

Lemma get_random_feed_url_world env path w :
  snd (DiscordBot.get_random_feed_url env path w) = w.
Proof.
  unfold DiscordBot.get_random_feed_url, bind, read_text, lift.
  destruct (feed_files w path); [|reflexivity].
  destruct (DiscordBot.valid_feeds_loop _ _); reflexivity.
Qed.

Lemma datetime_only_Exception env :
  raises_only_Exception (datetime_now_isoformat env).
Proof. intros w e. discriminate. Qed.

Lemma first_unposted_only_Exception env posted feed_url entries :
  raises_only_Exception (DiscordBot.first_unposted env posted feed_url entries).
Proof.
  induction entries as [|entry entries IH]; cbn [DiscordBot.first_unposted].
  - now apply only_Exception_raise.
  - destruct (negb (any_url_eq posted (entry_link entry))); [|exact IH].
    apply only_Exception_bind; [apply datetime_only_Exception|].
    intros now. apply only_Exception_ret.
Qed.

Lemma get_latest_article_only_Exception env feed_url :
  raises_only_Exception (DiscordBot.get_latest_article env feed_url).
Proof.
  unfold DiscordBot.get_latest_article.
  destruct (feedparser_parse env feed_url) eqn:E.
  - now apply only_Exception_raise.
  - apply only_Exception_bind; [apply only_Exception_gets|].
    intros posted. apply first_unposted_only_Exception.
Qed.

(** The fetcher reads the clock at most; the rest of the world stays. *)
Lemma first_unposted_world env posted feed_url entries w :
  let w' := snd (DiscordBot.first_unposted env posted feed_url entries w) in
  w' = w \/ w' = set_clock (S (clock w)) w.
Proof.
  cbv zeta. induction entries as [|entry entries IH];
    cbn [DiscordBot.first_unposted].
  - left; reflexivity.
  - destruct (negb (any_url_eq posted (entry_link entry))); [|exact IH].
    right; reflexivity.
Qed.

Lemma discord_get_latest_article_world env feed_url w :
  let w' := snd (DiscordBot.get_latest_article env feed_url w) in
  w' = w \/ w' = set_clock (S (clock w)) w.
Proof.
  cbv zeta. unfold DiscordBot.get_latest_article.
  destruct (feedparser_parse env feed_url) eqn:E; [left; reflexivity|].
  apply (first_unposted_world env (posted_articles w)).
Qed.

Lemma generate_summary_only_Exception env article :
  raises_only_Exception (DiscordBot.generate_summary env article).
Proof.
  intros w e. rewrite discord_generate_summary_run. cbv zeta. simpl fst.
  destruct (status_code _ =? 200)%Z; [discriminate|].
  intros E. injection E as <-. reflexivity.
Qed.

Lemma post_to_discord_only_Exception env article summary :
  raises_only_Exception (DiscordBot.post_to_discord env article summary).
Proof.
  unfold DiscordBot.post_to_discord. cbv zeta.
  apply only_Exception_bind; [apply only_Exception_modify | intros _].
  destruct (negb (response_ok _)).
  - now apply only_Exception_raise.
  - apply only_Exception_ret.
Qed.

Lemma save_history_only_Exception env article_url :
  raises_only_Exception (DiscordBot.save_history env article_url).
Proof. intros w e. discriminate. Qed.

Lemma logging_info_only_Exception msg : raises_only_Exception (logging_info msg).
Proof. apply only_Exception_modify. Qed.

#[export] Hint Resolve get_random_feed_url_only_Exception
  get_latest_article_only_Exception generate_summary_only_Exception
  post_to_discord_only_Exception save_history_only_Exception
  logging_info_only_Exception : only_exception.

Lemma cycle_only_Exception env : raises_only_Exception (DiscordBot.cycle env).
Proof.
  unfold DiscordBot.cycle.
  repeat (apply only_Exception_bind; [auto with only_exception | intros ?]).
  auto with only_exception.
Qed.

(** The body of the loop ends in the delay whatever the cycle did: only the
    interrupt leaves it. *)
Lemma loop_body_result env w :
  fst (DiscordBot.loop_body env w)
  = if interrupted env then Raise KeyboardInterrupt else Ok tt.
Proof.
  unfold DiscordBot.loop_body, bind at 1, try_except_Exception.
  pose proof (cycle_only_Exception env w) as Hc.
  destruct (DiscordBot.cycle env w) as [[[]|e] w']; simpl in Hc.
  - reflexivity.
  - rewrite (Hc e eq_refl). reflexivity.
Qed.

Lemma while_True_step env rest w :
  interrupted env = false ->
  DiscordBot.while_True (env :: rest) w
  = DiscordBot.while_True rest (snd (DiscordBot.loop_body env w)).
Proof.
  intros Hi. cbn [DiscordBot.while_True]. unfold bind at 1.
  pose proof (loop_body_result env w) as H. rewrite Hi in H.
  destruct (DiscordBot.loop_body env w) as [[[]|e] w']; simpl in *;
    [reflexivity | discriminate].
Qed.

(** Without an interrupt every cycle given is run, whatever fails in it. *)
Lemma while_True_runs_all envs w :
  Forall (fun env => interrupted env = false) envs ->
  fst (DiscordBot.while_True envs w) = Ok tt.
Proof.
  intros H. revert w. induction H as [|env envs Hi _ IH]; intros w.
  - reflexivity.
  - rewrite (while_True_step _ _ _ Hi). apply IH.
Qed.

(** The loop is left by the interrupt only, which [main] reports and
    swallows. *)
Lemma while_True_result envs w :
  fst (DiscordBot.while_True envs w) = Ok tt
  \/ fst (DiscordBot.while_True envs w) = Raise KeyboardInterrupt.
Proof.
  revert w. induction envs as [|env envs IH]; intros w; [now left|].
  cbn [DiscordBot.while_True]. unfold bind.
  pose proof (loop_body_result env w) as H.
  destruct (DiscordBot.loop_body env w) as [[[]|e] w']; simpl in H.
  - apply IH.
  - right. simpl. destruct (interrupted env); congruence.
Qed.

(** C9. The summarizer raises exactly when the status of the response is
    not 200, and on 200 it returns the text at choices[0].message.content
    stripped.  In the loop of src/discord.py, a cycle that selected a feed
    and fetched an article and whose generation call is answered with
    another status is skipped: the error is logged, nothing is published,
    the history stays as it was, the delay is slept, and unless the user
    interrupts the delay the loop goes on with the next cycle. *)
Theorem generation_error_skips_cycle (env : Env) (article : DiscordBot.Article) :
  let request := DiscordBot.summary_request env article in
  let response := generation_response env request in
  (forall w,
      fst (DiscordBot.generate_summary env article w)
      = if (status_code response =? 200)%Z
        then Ok (strip (choices_0_message_content response))
        else Raise (Exception (lit "Ollama API error: " ++ text response)))
  /\ (forall w,
        (exists e, fst (DiscordBot.generate_summary env article w) = Raise e)
        <-> status_code response <> 200%Z)
  /\ (forall w feed_url w1,
        fst (DiscordBot.get_random_feed_url env (lit "rss_feeds.txt") w)
        = Ok feed_url ->
        DiscordBot.get_latest_article env feed_url
          (add_log (INFO, lit "Selected feed: " ++ feed_url) w)
        = (Ok article, w1) ->
        status_code response <> 200%Z ->
        let w2 :=
          add_slept 3
            (add_log (INFO, lit "Sleeping for 3 seconds...")
               (add_log (ERROR, lit "Error in main loop: Ollama API error: "
                                ++ text response)
                  (add_outbox (SentGeneration request)
                     (add_log (INFO, lit "Found article: "
                                     ++ DiscordBot.title article) w1)))) in
        DiscordBot.loop_body env w
        = (if interrupted env then Raise KeyboardInterrupt else Ok tt, w2)
        /\ posted_articles w2 = posted_articles w
        /\ history_file w2 = history_file w
        /\ outbox w2 = outbox w ++ [SentGeneration request]
        /\ slept w2 = slept w ++ [3]
        /\ (interrupted env = false ->
            forall rest,
              DiscordBot.while_True (env :: rest) w
              = DiscordBot.while_True rest w2)).
Proof.
  cbv zeta. split; [|split].
  - intros w. now rewrite discord_generate_summary_run.
  - intros w. apply generate_summary_result.
  - intros w feed_url w1 H1 H2 H3.
    assert (E1 : DiscordBot.get_random_feed_url env (lit "rss_feeds.txt") w
                 = (Ok feed_url, w)).
    { rewrite (surjective_pairing (DiscordBot.get_random_feed_url _ _ w)).
      now rewrite H1, get_random_feed_url_world. }
    assert (Ec : DiscordBot.cycle env w
                 = (Raise (Exception
                             (lit "Ollama API error: "
                              ++ text (generation_response env
                                         (DiscordBot.summary_request env article)))),
                    add_outbox
                      (SentGeneration (DiscordBot.summary_request env article))
                      (add_log (INFO, lit "Found article: "
                                      ++ DiscordBot.title article) w1))).
    { unfold DiscordBot.cycle. rewrite (bind_ok _ _ _ _ _ E1).
      unfold logging_info at 1. rewrite bind_modify.
      rewrite (bind_ok _ _ _ _ _ H2).
      unfold logging_info at 1. rewrite bind_modify.
      apply bind_raise. rewrite discord_generate_summary_run. cbv zeta.
      apply Z.eqb_neq in H3. now rewrite H3. }
    assert (El : DiscordBot.loop_body env w
                 = (if interrupted env then Raise KeyboardInterrupt else Ok tt,
                    add_slept 3
                      (add_log (INFO, lit "Sleeping for 3 seconds...")
                         (add_log (ERROR,
                                   lit "Error in main loop: Ollama API error: "
                                   ++ text (generation_response env
                                              (DiscordBot.summary_request env article)))
                            (add_outbox
                               (SentGeneration
                                  (DiscordBot.summary_request env article))
                               (add_log (INFO, lit "Found article: "
                                               ++ DiscordBot.title article)
                                        w1)))))).
    { unfold DiscordBot.loop_body, bind at 1, try_except_Exception.
      rewrite Ec. reflexivity. }
    split; [exact El|].
    pose proof (discord_get_latest_article_world env feed_url
                  (add_log (INFO, lit "Selected feed: " ++ feed_url) w)) as Hw.
    rewrite H2 in Hw. cbv zeta in Hw. simpl snd in Hw.
    repeat split.
    + destruct Hw as [-> | ->]; reflexivity.
    + destruct Hw as [-> | ->]; reflexivity.
    + destruct Hw as [-> | ->]; reflexivity.
    + destruct Hw as [-> | ->]; reflexivity.
    + intros Hi rest. rewrite (while_True_step _ _ _ Hi). now rewrite El.
Qed.

(** The feed holds A and B, the history holds A, and the endpoint answers
    500: the cycle for B is skipped and the loop goes on. *)
Lemma generation_error_skips_cycle_witness :
  fst (DiscordBot.loop_body Samples.env_500 Samples.worldA) = Ok tt
  /\ posted_articles (snd (DiscordBot.loop_body Samples.env_500 Samples.worldA))
     = Samples.historyA
  /\ DiscordBot.while_True [Samples.env_500; Samples.env_500] Samples.worldA
     = DiscordBot.while_True [Samples.env_500]
         (snd (DiscordBot.loop_body Samples.env_500 Samples.worldA)).
Proof.
  destruct (proj2 (proj2 (generation_error_skips_cycle Samples.env_500
                            Samples.articleB))
              Samples.worldA (lit "http://example.com/feed.xml")
              (set_clock 1
                 (add_log (INFO, lit "Selected feed: http://example.com/feed.xml")
                          Samples.worldA)))
    as (El & Hp & _ & _ & _ & Hnext).
  - reflexivity.
  - reflexivity.
  - discriminate.
  - rewrite El. split; [reflexivity|]. split; [exact Hp|].
    apply Hnext. reflexivity.
Defined.

End LoopFacts.

(* ===================================================================== *)
(** * The URL in the tweet of src/local.py                                *)
(* ===================================================================== *)

Module UrlFacts.

Import PyFacts MonadFacts.

Lemma sends_silent {A} (P : Sent -> Prop) (m : M A) :
  (forall w, outbox (snd (m w)) = outbox w) -> sends P m.
Proof.
  intros H w. exists []. rewrite H, app_nil_r. split; [reflexivity | constructor].
Qed.

Lemma sends_bind {A B} (P : Sent -> Prop) (m : M A) (k : A -> M B) :
  sends P m ->
  (forall a, (exists w, fst (m w) = Ok a) -> sends P (k a)) ->
  sends P (bind m k).
Proof.
  intros Hm Hk w. unfold bind. destruct (Hm w) as (l & El & Hl).
  destruct (m w) as [[a|e] w'] eqn:E; simpl in El.
  - destruct (Hk a (ex_intro _ w (f_equal fst E)) w') as (l' & El' & Hl').
    exists (l ++ l'). rewrite El', El, app_assoc. split; [reflexivity|].
    apply Forall_app; auto.
  - exists l. simpl. auto.
Qed.

Lemma sends_try_except {A} (P : Sent -> Prop) (body : M A) handler :
  sends P body -> (forall e, sends P (handler e)) ->
  sends P (try_except_Exception body handler).
Proof.
  intros Hb Hh w. unfold try_except_Exception.
  destruct (Hb w) as (l & El & Hl).
  destruct (body w) as [[a|e] w'] eqn:E; simpl in El.
  - exists l. simpl. auto.
  - destruct (is_Exception e).
    + destruct (Hh e w') as (l' & El' & Hl').
      exists (l ++ l'). rewrite El', El, app_assoc. split; [reflexivity|].
      apply Forall_app; auto.
    + exists l. simpl. auto.
Qed.

Lemma sends_logging_info P msg : sends P (logging_info msg).
Proof. apply sends_silent. reflexivity. Qed.

Lemma sends_logging_error P msg : sends P (logging_error msg).
Proof. apply sends_silent. reflexivity. Qed.

Lemma sends_raise {A} P e : sends P (@raise A e).
Proof. apply sends_silent. reflexivity. Qed.

Lemma sends_init P : sends P LocalBot.init.
Proof.
  apply sends_silent. intros w.
  unfold LocalBot.init, TweetBot.init, TweetBot.load_history, bind.
  destruct (history_file w); reflexivity.
Qed.

Lemma sends_get_random_feed_url P env path :
  sends P (LocalBot.get_random_feed_url env path).
Proof.
  apply sends_silent. intros w.
  unfold LocalBot.get_random_feed_url, TweetBot.get_random_feed_url,
    bind, read_text, lift.
  destruct (feed_files w path); [|reflexivity].
  destruct (TweetBot.valid_feeds_loop _ _); reflexivity.
Qed.

Lemma sends_get_latest_article P env feed_url :
  sends P (LocalBot.get_latest_article env feed_url).
Proof.
  apply sends_silent. intros w.
  unfold LocalBot.get_latest_article.
  now rewrite FetcherFacts.get_latest_article_world.
Qed.

Lemma sends_generate_tweet env env' article :
  sends (posted_as_ensured env') (LocalBot.generate_tweet env article).
Proof.
  intros w. exists [SentGeneration (LocalBot.tweet_request env article)].
  split; [|repeat constructor].
  unfold LocalBot.generate_tweet. rewrite bind_modify. cbv zeta.
  destruct (negb _); reflexivity.
Qed.

Lemma sends_post_tweet P env tweet_text :
  P (SentTweet tweet_text) -> sends P (LocalBot.post_tweet env tweet_text).
Proof.
  intros H w. exists [SentTweet tweet_text]. split; [|repeat constructor; auto].
  unfold LocalBot.post_tweet. rewrite bind_modify. cbv zeta.
  destruct (negb _); reflexivity.
Qed.

Lemma sends_save_history P env article_url :
  sends P (LocalBot.save_history env article_url).
Proof. apply sends_silent. reflexivity. Qed.

Lemma main_sends_ensured env :
  sends (posted_as_ensured env) (LocalBot.main env).
Proof.
  unfold LocalBot.main. apply sends_try_except.
  - apply sends_bind; [apply sends_init | intros _ _].
    apply sends_bind; [apply sends_get_random_feed_url | intros feed_url _].
    apply sends_bind; [apply sends_logging_info | intros _ _].
    apply sends_bind; [apply sends_get_latest_article | intros article [wa Ha]].
    apply sends_bind; [apply sends_logging_info | intros _ _].
    apply sends_bind; [apply sends_generate_tweet | intros tweet [wb Hb]].
    apply sends_bind; [apply sends_logging_info | intros _ _].
    cbv zeta.
    apply sends_bind; [|intros response _].
    { apply sends_post_tweet. simpl. now exists feed_url, article, tweet, wa, wb. }
    apply sends_bind; [apply sends_logging_info | intros _ _].
    apply sends_bind; [apply sends_save_history | intros _ _].
    apply sends_logging_info.
  - intros e. apply sends_bind; [apply sends_logging_error | intros _ _].
    apply sends_raise.
Qed.

Lemma url_not_nil : lit "[URL]" <> [].
Proof. discriminate. Qed.

Lemma ensure_url_contains (tweet link : str) :
  contains (LocalBot.ensure_url tweet link) link = true.
Proof.
  unfold LocalBot.ensure_url. destruct (contains tweet link) eqn:E; cbn [negb].
  - exact E.
  - destruct (contains tweet (lit "[URL]")) eqn:E'.
    + apply replace_contains_new; [apply url_not_nil | exact E'].
    + rewrite <- (app_nil_r link) at 1.
      rewrite (app_assoc (rstrip tweet)). apply contains_app.
Qed.

(** C8. In the local variant the text posted always holds the article
    link: a generated text that holds the link is posted as it is;
    otherwise, when it holds "[URL]", every occurrence of the placeholder is
    replaced by the link (the text is its pieces between the placeholders,
    none of which holds the placeholder, and the posted text is the same
    pieces with the link between them); otherwise the link is appended to
    the right-stripped text after one space.  Every tweet [main] sends is
    such a text, for the link of the article it fetched. *)
Theorem posted_tweet_contains_link :
  (forall tweet link : str,
      let posted := LocalBot.ensure_url tweet link in
      let pieces := split tweet (lit "[URL]") in
      contains posted link = true
      /\ ((contains tweet link = true /\ posted = tweet)
          \/ (contains tweet link = false
              /\ contains tweet (lit "[URL]") = true
              /\ posted = replace tweet (lit "[URL]") link
              /\ join (lit "[URL]") pieces = tweet
              /\ Forall (fun p => contains p (lit "[URL]") = false) pieces
              /\ posted = join link pieces)
          \/ (contains tweet link = false
              /\ contains tweet (lit "[URL]") = false
              /\ posted = rstrip tweet ++ lit " " ++ link)))
  /\ (forall env w,
        exists sent,
          outbox (snd (LocalBot.main env w)) = outbox w ++ sent
          /\ forall posted, In (SentTweet posted) sent ->
               exists feed_url article tweet wa wb,
                 fst (LocalBot.get_latest_article env feed_url wa) = Ok article
                 /\ fst (LocalBot.generate_tweet env article wb) = Ok tweet
                 /\ posted = LocalBot.ensure_url tweet (TweetBot.link article)
                 /\ contains posted (TweetBot.link article) = true).
Proof.
  split.
  - intros tweet link. cbv zeta. split; [apply ensure_url_contains|].
    unfold LocalBot.ensure_url.
    destruct (contains tweet link) eqn:E; cbn [negb]; [left; auto|].
    right. destruct (contains tweet (lit "[URL]")) eqn:E'.
    + left. repeat split.
      * apply join_split, url_not_nil.
      * apply split_free, url_not_nil.
      * apply replace_join.
    + right. auto.
  - intros env w. destruct (main_sends_ensured env w) as (sent & E & Hs).
    exists sent. split; [exact E|]. intros posted Hin.
    rewrite Forall_forall in Hs. specialize (Hs _ Hin). simpl in Hs.
    destruct Hs as (feed_url & article & tweet & wa & wb & Ha & Hb & ->).
    exists feed_url, article, tweet, wa, wb. repeat split; auto.
    apply ensure_url_contains.
Qed.

(** The generated text holds the placeholder and not the link. *)
Lemma posted_tweet_contains_link_witness :
  contains (LocalBot.ensure_url (lit "B is out. [URL]")
                                (lit "http://example.com/b"))
           (lit "http://example.com/b") = true.
Proof.
  apply (proj1 posted_tweet_contains_link
           (lit "B is out. [URL]") (lit "http://example.com/b")).
Defined.

End UrlFacts.

(* ===================================================================== *)
(** * The selector on feed lists without indented lines                   *)
(* ===================================================================== *)

Module CleanSelectorFacts.

Import PyFacts SelectorFacts.

Lemma lstrip_snoc (l : str) (c : ascii) :
  isspace c = false -> exists q, lstrip (l ++ [c]) = q ++ [c].
Proof.
  intros Hc. induction l as [|d l [q IH]]; simpl.
  - rewrite Hc. now exists [].
  - destruct (isspace d); [now exists q|]. now exists (d :: l).
Qed.

(** Stripping keeps a first character that is not whitespace. *)
Lemma strip_keeps_head (c : ascii) (p : str) :
  isspace c = false -> exists q, strip (c :: p) = c :: q.
Proof.
  intros Hc. unfold strip, rstrip. cbn [lstrip]. rewrite Hc. cbn [rev].
  destruct (lstrip_snoc (rev p) c Hc) as [q ->].
  rewrite rev_app_distr. simpl. now exists (rev q).
Qed.

Lemma split_ws_from_head (cur s : str) :
  cur <> [] -> exists w ps, split_ws_from cur s = (cur ++ w) :: ps.
Proof.
  revert cur. induction s as [|d s IH]; intros cur Hcur; cbn [split_ws_from].
  - exists [], []. rewrite app_nil_r. destruct cur; [congruence | reflexivity].
  - destruct (isspace d).
    + exists [], (split_ws_from [] s). rewrite app_nil_r.
      destruct cur; [congruence | reflexivity].
    + destruct (IH (cur ++ [d])) as (w & ps & E).
      { destruct cur; discriminate. }
      exists (d :: w), ps. rewrite E. now rewrite <- app_assoc.
Qed.

Lemma usable_head (c : ascii) (q : str) :
  Ascii.eqb c "#" = false -> usable_url (c :: q).
Proof. intros H. split; [discriminate|]. simpl. now rewrite H. Qed.

Lemma clean_guard (sep : option ascii) (line : str) :
  begins_with_url sep line ->
  truthy line && negb (startswith line (lit "#")) = true ->
  exists c rest, line = c :: rest /\ isspace c = false /\ sep <> Some c
                 /\ Ascii.eqb c "#" = false.
Proof.
  intros (c & rest & -> & Hc & Hs) G. exists c, rest.
  repeat split; auto. simpl in G. now destruct (Ascii.eqb c "#").
Qed.

Lemma tweet_loop_clean feeds valid_feeds :
  Forall (fun line => dropped line \/ begins_with_url (Some "!"%char) line) feeds ->
  Forall usable_url valid_feeds ->
  exists l, TweetBot.valid_feeds_loop feeds valid_feeds = Ok l
            /\ Forall usable_url l.
Proof.
  intros Hf. revert valid_feeds.
  induction Hf as [|line feeds Hl _ IH]; intros valid_feeds Hv.
  - exists valid_feeds. auto.
  - cbn [TweetBot.valid_feeds_loop].
    destruct (truthy line && negb (startswith line (lit "#"))) eqn:G;
      [|now apply IH].
    destruct Hl as [Hd | Hb]; [now rewrite dropped_guard in G|].
    destruct (clean_guard _ _ Hb G) as (c & rest & -> & Hc & Hs & Hh).
    unfold split. cbn [split_from startswith lit list_ascii_of_string].
    destruct (Ascii.eqb c "!") eqn:Ec.
    { apply Ascii.eqb_eq in Ec. subst c. congruence. }
    cbn [andb].
    destruct (split_from_head_prefix ["!"%char] rest) as (p & ps & r & Ep & _).
    rewrite Ep. cbn [cons_head getitem nth_error bind_result].
    destruct (strip_keeps_head c p Hc) as [q ->].
    apply IH. apply Forall_app. split; [assumption|].
    constructor; [now apply usable_head | constructor].
Qed.

Lemma discord_loop_clean feeds valid_feeds :
  Forall (fun line => dropped line \/ begins_with_url None line) feeds ->
  Forall usable_url valid_feeds ->
  exists l, DiscordBot.valid_feeds_loop feeds valid_feeds = Ok l
            /\ Forall usable_url l.
Proof.
  intros Hf. revert valid_feeds.
  induction Hf as [|line feeds Hl _ IH]; intros valid_feeds Hv.
  - exists valid_feeds. auto.
  - cbn [DiscordBot.valid_feeds_loop].
    destruct (truthy line && negb (startswith line (lit "#"))) eqn:G;
      [|now apply IH].
    destruct Hl as [Hd | Hb]; [now rewrite dropped_guard in G|].
    destruct (clean_guard _ _ Hb G) as (c & rest & -> & Hc & Hs & Hh).
    unfold split_ws. cbn [split_ws_from]. rewrite Hc. cbn [app].
    destruct (split_ws_from_head [c] rest) as (x & ps & ->); [discriminate|].
    cbn [app getitem nth_error bind_result].
    destruct (strip_keeps_head c x Hc) as [q ->].
    apply IH. apply Forall_app. split; [assumption|].
    constructor; [now apply usable_head | constructor].
Qed.

Lemma random_choice_In {A} n (l : list A) a :
  random_choice n l = Ok a -> In a l.
Proof.
  destruct l as [|x l]; [discriminate|]. unfold random_choice, getitem.
  destruct (nth_error (x :: l) _) eqn:E; [|discriminate].
  intros H. injection H as <-. now apply nth_error_In in E.
Qed.

(** What does hold of the selector: on a feed list whose lines are empty,
    comments, or begin with a character of the URL, whatever is returned is
    neither blank nor a comment. *)
Lemma get_random_feed_url_clean_lines (env : Env) (file_path text : str)
  (w : World) :
  feed_files w file_path = Some text ->
  (Forall (fun line => dropped line \/ begins_with_url (Some "!"%char) line)
          (splitlines text) ->
   forall u, fst (TweetBot.get_random_feed_url env file_path w) = Ok u ->
             usable_url u)
  /\ (Forall (fun line => dropped line \/ begins_with_url None line)
             (splitlines text) ->
      forall u, fst (DiscordBot.get_random_feed_url env file_path w) = Ok u ->
                usable_url u).
Proof.
  intros E. split; intros Hf u.
  - rewrite (tweet_get_random_feed_url_run _ _ _ _ E). simpl fst.
    destruct (tweet_loop_clean _ [] Hf (Forall_nil _)) as (l & -> & Hl).
    simpl. intros H. apply random_choice_In in H.
    rewrite Forall_forall in Hl. now apply Hl.
  - rewrite (discord_get_random_feed_url_run _ _ _ _ E). simpl fst.
    destruct (discord_loop_clean _ [] Hf (Forall_nil _)) as (l & -> & Hl).
    simpl. intros H. apply random_choice_In in H.
    rewrite Forall_forall in Hl. now apply Hl.
Qed.

End CleanSelectorFacts.

(* ===================================================================== *)
(** * Runs on the sample worlds                                           *)
(* ===================================================================== *)

Module Examples.

(** ** The built-ins *)

Example splitlines_ex1 :
  splitlines (lit "# comment" ++ [chr 10; chr 10] ++ lit "http://example.com/feed.xml" ++ [chr 10])
  = [lit "# comment"; []; lit "http://example.com/feed.xml"].
Proof. reflexivity. Qed.

Example splitlines_ex2 :
  splitlines (lit "a" ++ [chr 13; chr 10] ++ lit "b" ++ [chr 13] ++ lit "c") = [lit "a"; lit "b"; lit "c"].
Proof. reflexivity. Qed.

Example split_ex1 : split (lit "http://a/b ! tag!x") (lit "!") = [lit "http://a/b "; lit " tag"; lit "x"].
Proof. reflexivity. Qed.

Example split_ex2 : split (lit "a[URL]b[URL]") (lit "[URL]") = [lit "a"; lit "b"; []].
Proof. reflexivity. Qed.

Example split_ws_ex1 : split_ws (lit "  http://a/b   tag  x ") = [lit "http://a/b"; lit "tag"; lit "x"].
Proof. reflexivity. Qed.

Example split_ws_ex2 : split_ws (lit "   ") = [].
Proof. reflexivity. Qed.

Example strip_ex1 : strip (lit "  a b  ") = lit "a b".
Proof. reflexivity. Qed.

Example replace_ex1 : replace (lit "see [URL] or [URL]!") (lit "[URL]") (lit "http://x") = lit "see http://x or http://x!".
Proof. reflexivity. Qed.

Example replace_ex2 : replace (lit "aaa") (lit "aa") (lit "b") = lit "ba".
Proof. reflexivity. Qed.

Example contains_ex1 : contains (lit "abc") (lit "bc") = true /\ contains (lit "abc") (lit "cb") = false.
Proof. split; reflexivity. Qed.

(** ** The scenarios of the specification *)

(** A comment, an empty line and one URL: the URL is selected. *)
Example selector_scenario :
  splitlines Samples.feed_list
  = [lit "# comment"; []; lit "http://example.com/feed.xml"]
  /\ fst (TweetBot.get_random_feed_url (Samples.env_with 7 200)
            (lit "rss_feeds.txt") Samples.worldA)
     = Ok (lit "http://example.com/feed.xml")
  /\ fst (DiscordBot.get_random_feed_url (Samples.env_with 7 200)
            (lit "rss_feeds.txt") Samples.worldA)
     = Ok (lit "http://example.com/feed.xml").
Proof. repeat split. Qed.

(** Entries A and B with A in the history: B is fetched. *)
Example fetcher_scenario :
  fst (TweetBot.get_latest_article Samples.env_ok
         (lit "http://example.com/feed.xml") Samples.worldA)
  = Ok (TweetBot.mkArticle (lit "Title B") (lit "B") (lit "about B")
                           (lit "body B")).
Proof. reflexivity. Qed.

(** Every entry in the history: "No new articles found". *)
Example fetcher_all_posted_scenario :
  fst (TweetBot.get_latest_article Samples.env_ok (lit "u")
         (Samples.world_with Samples.feed_list
            (Samples.historyA ++ [mkHistoryRecord (lit "B") (Samples.stamp 0)])))
  = Raise (Exception (lit "No new articles found in feed: u")).
Proof. reflexivity. Qed.

(** ** One cycle of src/discord.py that succeeds *)

Example discord_cycle_ok :
  let w := snd (DiscordBot.loop_body Samples.env_ok Samples.worldA) in
  fst (DiscordBot.loop_body Samples.env_ok Samples.worldA) = Ok tt
  /\ posted_articles w
     = Samples.historyA ++ [mkHistoryRecord (lit "B") (Samples.stamp 1)]
  /\ history_file w = Some (posted_articles w)
  /\ map fst (log w) = [INFO; INFO; INFO; INFO; INFO; INFO]
  /\ slept w = [3]
  /\ outbox w
     = [SentGeneration (DiscordBot.summary_request Samples.env_ok Samples.articleB);
        SentWebhook (mkEmbed (lit "Title B") (lit "B is out. [URL]") (lit "B")
                             7506394%Z (lit "Unknown Author")
                             (lit "Published: 2024-05-01T12:00:00"))].
Proof. repeat split. Qed.

(** ** src/local.py *)

Example ensure_url_placeholder :
  LocalBot.ensure_url (lit "B is out. [URL] Read it: [URL]")
                      (lit "http://example.com/b")
  = lit "B is out. http://example.com/b Read it: http://example.com/b".
Proof. reflexivity. Qed.

Example ensure_url_appended :
  LocalBot.ensure_url (lit "B is out.  ") (lit "http://example.com/b")
  = lit "B is out. http://example.com/b".
Proof. reflexivity. Qed.

Example local_main_run :
  let w := snd (LocalBot.main Samples.env_ok Samples.worldA) in
  fst (LocalBot.main Samples.env_ok Samples.worldA) = Ok tt
  /\ outbox w
     = [SentGeneration (LocalBot.tweet_request Samples.env_ok
                          (TweetBot.mkArticle (lit "Title B") (lit "B")
                                              (lit "about B") (lit "body B")));
        SentTweet (lit "B is out. [URL]")]
  /\ posted_articles w
     = Samples.historyA ++ [mkHistoryRecord (lit "B") (Samples.stamp 0)].
Proof. repeat split. Qed.

End Examples.

(* ===================================================================== *)
(** * Stripping and splitting                                             *)
(* ===================================================================== *)

Module StripFacts.

Import PyFacts.

Lemma lstrip_split (s : str) :
  exists p, s = p ++ lstrip s /\ Forall (fun c => isspace c = true) p.
Proof.
  induction s as [|c s (p & E & Hp)]; simpl.
  - exists []. split; [reflexivity | constructor].
  - destruct (isspace c) eqn:Ec.
    + exists (c :: p). split; [now rewrite E at 1 | now constructor].
    + exists []. split; [reflexivity | constructor].
Qed.

Lemma lstrip_head (s : str) c r : lstrip s = c :: r -> isspace c = false.
Proof.
  induction s as [|d s IH]; simpl; [discriminate|].
  destruct (isspace d) eqn:Ed; [exact IH|].
  intros E. injection E as <- _. exact Ed.
Qed.

Lemma rstrip_split (s : str) :
  exists q, s = rstrip s ++ q /\ Forall (fun c => isspace c = true) q.
Proof.
  unfold rstrip. destruct (lstrip_split (rev s)) as (p & E & Hp).
  exists (rev p). split.
  - rewrite <- rev_app_distr, <- E. now rewrite rev_involutive.
  - now apply Forall_rev.
Qed.

Lemma rstrip_last (s : str) c r : rstrip s = r ++ [c] -> isspace c = false.
Proof.
  unfold rstrip. intros E. apply (f_equal (@rev ascii)) in E.
  rewrite rev_involutive, rev_app_distr in E. simpl in E.
  now apply lstrip_head in E.
Qed.

(** The stripped text sits in the text between two runs of whitespace. *)
Lemma strip_split (s : str) :
  exists p q, s = p ++ strip s ++ q
              /\ Forall (fun c => isspace c = true) p
              /\ Forall (fun c => isspace c = true) q.
Proof.
  unfold strip. destruct (lstrip_split s) as (p & E & Hp).
  destruct (rstrip_split (lstrip s)) as (q & E' & Hq).
  exists p, q. split; [|auto]. now rewrite <- E', <- E.
Qed.

Lemma strip_no_outer_space (s : str) : no_outer_space (strip s).
Proof.
  split; intros c r E.
  - unfold strip in E. destruct (rstrip_split (lstrip s)) as (q & E' & _).
    rewrite E in E'. simpl in E'. now apply lstrip_head in E'.
  - unfold strip in E. now apply rstrip_last in E.
Qed.

Lemma strip_free (s sub : str) :
  contains s sub = false -> contains (strip s) sub = false.
Proof.
  intros H. destruct (contains (strip s) sub) eqn:E; [|reflexivity].
  apply contains_spec in E as (a & b & E).
  destruct (strip_split s) as (p & q & Es & _).
  rewrite E in Es. rewrite <- H. symmetry. apply contains_spec.
  exists (p ++ a), (b ++ q). rewrite Es. now rewrite <- !app_assoc.
Qed.

Lemma lstrip_no_space (s : str) :
  Forall (fun c => isspace c = false) s -> lstrip s = s.
Proof. intros [|c r Hc _]; simpl; [reflexivity | now rewrite Hc]. Qed.

(** Stripping leaves a text without whitespace as it is. *)
Lemma strip_no_space (s : str) :
  Forall (fun c => isspace c = false) s -> strip s = s.
Proof.
  intros H. unfold strip, rstrip. rewrite (lstrip_no_space s H).
  rewrite lstrip_no_space by now apply Forall_rev.
  apply rev_involutive.
Qed.

(** The words of [s.split()] are not empty and hold no whitespace. *)
Lemma split_ws_from_words (cur s : str) :
  Forall (fun c => isspace c = false) cur ->
  Forall (fun p => p <> [] /\ Forall (fun c => isspace c = false) p)
         (split_ws_from cur s).
Proof.
  revert cur. induction s as [|c s IH]; intros cur Hcur; cbn [split_ws_from].
  - destruct cur; simpl; constructor; [split; [discriminate | assumption]|].
    constructor.
  - destruct (isspace c) eqn:Ec.
    + destruct cur; simpl; [apply IH; constructor|].
      constructor; [split; [discriminate | assumption]|].
      apply IH. constructor.
    + apply IH. apply Forall_app. split; [assumption|].
      constructor; [assumption | constructor].
Qed.

Lemma split_ws_words (s : str) :
  Forall (fun p => p <> [] /\ Forall (fun c => isspace c = false) p)
         (split_ws s).
Proof. apply split_ws_from_words. constructor. Qed.

(** [s.split()] is empty on whitespace only. *)
Lemma split_ws_from_nil (cur s : str) :
  split_ws_from cur s = [] ->
  cur = [] /\ Forall (fun c => isspace c = true) s.
Proof.
  revert cur. induction s as [|c s IH]; intros cur; cbn [split_ws_from].
  - destruct cur; [auto | discriminate].
  - destruct (isspace c) eqn:Ec.
    + destruct cur; simpl; [|discriminate].
      intros E. destruct (IH [] E) as [_ H]. split; [reflexivity|].
      now constructor.
    + intros E. destruct (IH _ E) as [E' _]. destruct cur; discriminate.
Qed.

Lemma split_ws_nil (s : str) :
  split_ws s = [] -> Forall (fun c => isspace c = true) s.
Proof. intros E. now apply split_ws_from_nil in E. Qed.

End StripFacts.

(* ===================================================================== *)
(** * The feed selector, in full                                          *)
(* ===================================================================== *)

Module SelectorOutcome.

Import PyFacts SelectorFacts StripFacts.

Lemma forallb_isspace (line : str) :
  forallb isspace line = true <-> Forall (fun c => isspace c = true) line.
Proof. rewrite forallb_forall, Forall_forall. reflexivity. Qed.

Lemma whitespace_only_kept (line : str) :
  whitespace_only line = true -> kept line = true /\ split_ws line = [].
Proof.
  unfold whitespace_only. rewrite andb_true_iff, forallb_isspace.
  intros [Ht Hs].
  assert (Hne : line <> []) by (destruct line; [discriminate | discriminate]).
  split; [now apply space_line_guard | now apply split_ws_all_space].
Qed.

Lemma kept_no_word (line : str) :
  kept line = true -> split_ws line = [] -> whitespace_only line = true.
Proof.
  unfold kept, whitespace_only. rewrite !andb_true_iff. intros [Ht _] E.
  split; [assumption|]. apply forallb_isspace. now apply split_ws_nil.
Qed.

(** The loop of the '!' variant never fails: it maps the kept lines. *)
Lemma tweet_loop_map feeds valid_feeds :
  TweetBot.valid_feeds_loop feeds valid_feeds
  = Ok (valid_feeds ++ map url_before_bang (filter kept feeds)).
Proof.
  revert valid_feeds. induction feeds as [|line feeds IH]; intros valid_feeds.
  - simpl. now rewrite app_nil_r.
  - cbn [TweetBot.valid_feeds_loop filter].
    change (truthy line && negb (startswith line (lit "#"))) with (kept line).
    destruct (kept line); [|apply IH].
    assert (Eu : getitem (split line (lit "!")) 0
                 = Ok (hd [] (split line (lit "!")))).
    { pose proof (split_from_not_nil (lit "!") 0 line) as Hne. unfold split.
      now destruct (split_from (lit "!") 0 line). }
    rewrite Eu. cbn [bind_result map]. rewrite IH.
    fold (url_before_bang line). now rewrite <- app_assoc.
Qed.

(** The loop of the whitespace variant fails on a line of whitespace and
    maps the kept lines otherwise. *)
Lemma discord_loop_run feeds valid_feeds :
  DiscordBot.valid_feeds_loop feeds valid_feeds
  = if existsb whitespace_only feeds
    then Raise (IndexError (lit "list index out of range"))
    else Ok (valid_feeds ++ map url_first_word (filter kept feeds)).
Proof.
  revert valid_feeds. induction feeds as [|line feeds IH]; intros valid_feeds.
  - simpl. now rewrite app_nil_r.
  - cbn [DiscordBot.valid_feeds_loop filter existsb].
    change (truthy line && negb (startswith line (lit "#"))) with (kept line).
    destruct (whitespace_only line) eqn:Ew.
    + destruct (whitespace_only_kept _ Ew) as [-> ->]. reflexivity.
    + cbn [orb]. destruct (kept line) eqn:Ek; [|apply IH].
      assert (Eu : getitem (split_ws line) 0 = Ok (hd [] (split_ws line))).
      { destruct (split_ws line) as [|p ps] eqn:Es; [|reflexivity].
        rewrite (kept_no_word _ Ek Es) in Ew. discriminate. }
      rewrite Eu. cbn [bind_result map]. rewrite IH.
      fold (url_first_word line).
      destruct (existsb whitespace_only feeds); [reflexivity|].
      now rewrite <- app_assoc.
Qed.

Lemma random_choice_nth {A} n (x : A) (l : list A) :
  exists u, random_choice n (x :: l) = Ok u
            /\ nth_error (x :: l) (n mod length (x :: l)) = Some u.
Proof.
  unfold random_choice, getitem.
  destruct (nth_error (x :: l) (n mod length (x :: l))) as [u|] eqn:E.
  - now exists u.
  - apply nth_error_None in E.
    pose proof (Nat.mod_upper_bound n (length (x :: l))) as Hb.
    simpl in *. lia.
Qed.

(** X1. The '!' selector in full: it leaves the world as it is; it raises
    FileNotFoundError when the file is missing and the IndexError of
    [random.choice] when no line is kept, and nothing else; otherwise it
    returns the URL at the drawn position among the stripped texts before
    the first '!' of the kept lines, in the order of the file. *)
Theorem tweet_selector_outcome (env : Env) (file_path : str) (w : World) :
  let r := TweetBot.get_random_feed_url env file_path w in
  snd r = w
  /\ match feed_files w file_path with
     | None => fst r = Raise (FileNotFoundError file_path)
     | Some text =>
         let urls := map url_before_bang (filter kept (splitlines text)) in
         match urls with
         | [] => fst r
                 = Raise (IndexError (lit "Cannot choose from an empty sequence"))
         | _ => exists u, fst r = Ok u
                          /\ nth_error urls (draw env mod length urls) = Some u
         end
     end.
Proof.
  cbv zeta. destruct (feed_files w file_path) as [text|] eqn:E.
  - rewrite (tweet_get_random_feed_url_run _ _ _ _ E), tweet_loop_map.
    cbn [app bind_result fst snd]. split; [reflexivity|].
    destruct (map url_before_bang (filter kept (splitlines text))) as [|x l].
    + reflexivity.
    + apply random_choice_nth.
  - unfold TweetBot.get_random_feed_url, bind, read_text. rewrite E.
    split; reflexivity.
Qed.

(** X2. The whitespace selector in full: it leaves the world as it is; it
    raises FileNotFoundError when the file is missing, the IndexError of
    indexing when some line is not empty and holds whitespace only, the
    IndexError of [random.choice] when no line is kept, and nothing else;
    otherwise it returns the first word at the drawn position among the
    kept lines. *)
Theorem discord_selector_outcome (env : Env) (file_path : str) (w : World) :
  let r := DiscordBot.get_random_feed_url env file_path w in
  snd r = w
  /\ match feed_files w file_path with
     | None => fst r = Raise (FileNotFoundError file_path)
     | Some text =>
         if existsb whitespace_only (splitlines text)
         then fst r = Raise (IndexError (lit "list index out of range"))
         else
           let urls := map url_first_word (filter kept (splitlines text)) in
           match urls with
           | [] => fst r
                   = Raise (IndexError (lit "Cannot choose from an empty sequence"))
           | _ => exists u, fst r = Ok u
                            /\ nth_error urls (draw env mod length urls) = Some u
           end
     end.
Proof.
  cbv zeta. destruct (feed_files w file_path) as [text|] eqn:E.
  - rewrite (discord_get_random_feed_url_run _ _ _ _ E), discord_loop_run.
    destruct (existsb whitespace_only (splitlines text)).
    + split; reflexivity.
    + cbn [app bind_result fst snd]. split; [reflexivity|].
      destruct (map url_first_word (filter kept (splitlines text))) as [|x l].
      * reflexivity.
      * apply random_choice_nth.
  - unfold DiscordBot.get_random_feed_url, bind, read_text. rewrite E.
    split; reflexivity.
Qed.

Lemma url_before_bang_shape (line : str) :
  contains (url_before_bang line) (lit "!") = false
  /\ no_outer_space (url_before_bang line).
Proof.
  unfold url_before_bang. split; [|apply strip_no_outer_space].
  apply strip_free.
  pose proof (split_free line (lit "!")) as H.
  destruct (split line (lit "!")) as [|p ps].
  - reflexivity.
  - assert (Hne : lit "!" <> []) by discriminate.
    specialize (H Hne). now inversion H.
Qed.

(** X3. Whatever the '!' selector returns holds no '!' and neither begins
    nor ends with whitespace. *)
Theorem tweet_selector_url_shape (env : Env) (file_path u : str) (w : World) :
  fst (TweetBot.get_random_feed_url env file_path w) = Ok u ->
  contains u (lit "!") = false /\ no_outer_space u.
Proof.
  destruct (feed_files w file_path) as [text|] eqn:E.
  - rewrite (tweet_get_random_feed_url_run _ _ _ _ E), tweet_loop_map.
    cbn [app bind_result fst]. intros H.
    apply CleanSelectorFacts.random_choice_In in H.
    apply in_map_iff in H as (line & <- & _). apply url_before_bang_shape.
  - unfold TweetBot.get_random_feed_url, bind, read_text. rewrite E.
    discriminate.
Qed.

Lemma tweet_selector_url_shape_witness :
  contains (lit "http://example.com/feed.xml") (lit "!") = false
  /\ no_outer_space (lit "http://example.com/feed.xml").
Proof.
  apply (tweet_selector_url_shape Samples.env_ok (lit "rss_feeds.txt")
           (lit "http://example.com/feed.xml") Samples.worldA).
  reflexivity.
Defined.

(** X4. Whatever the whitespace selector returns is not empty and holds no
    whitespace at all. *)
Theorem discord_selector_url_shape (env : Env) (file_path u : str) (w : World) :
  fst (DiscordBot.get_random_feed_url env file_path w) = Ok u ->
  u <> [] /\ Forall (fun c => isspace c = false) u.
Proof.
  destruct (feed_files w file_path) as [text|] eqn:E.
  - rewrite (discord_get_random_feed_url_run _ _ _ _ E), discord_loop_run.
    destruct (existsb whitespace_only (splitlines text)) eqn:Ex;
      [discriminate|].
    cbn [app bind_result fst]. intros H.
    apply CleanSelectorFacts.random_choice_In in H.
    apply in_map_iff in H as (line & <- & Hin).
    apply filter_In in Hin as [Hin Hk].
    unfold url_first_word. pose proof (split_ws_words line) as Hw.
    destruct (split_ws line) as [|p ps] eqn:Es.
    + exfalso. assert (Hx : existsb whitespace_only (splitlines text) = true).
      { apply existsb_exists. exists line. split; [assumption|].
        now apply kept_no_word. }
      congruence.
    + inversion Hw as [|? ? [Hne Hp] _]; subst. simpl.
      rewrite (strip_no_space p Hp). auto.
  - unfold DiscordBot.get_random_feed_url, bind, read_text. rewrite E.
    discriminate.
Qed.

Lemma discord_selector_url_shape_witness :
  lit "http://example.com/feed.xml" <> []
  /\ Forall (fun c => isspace c = false) (lit "http://example.com/feed.xml").
Proof.
  apply (discord_selector_url_shape Samples.env_ok (lit "rss_feeds.txt")
           (lit "http://example.com/feed.xml") Samples.worldA).
  reflexivity.
Defined.

End SelectorOutcome.

(* ===================================================================== *)
(** * The fetcher of the webhook bots and the history over many appends   *)
(* ===================================================================== *)

Module FetchStoreFacts.

Import PyFacts FetcherFacts HistoryFacts MonadFacts.

Lemma first_new_some posted entries e :
  first_new posted entries = Some e ->
  In e entries /\ ~ in_history posted (entry_link e).
Proof.
  unfold first_new. intros H. apply find_some in H as [Hin Hn].
  split; [assumption|]. apply any_url_eq_false.
  now destruct (any_url_eq posted (entry_link e)).
Qed.

Lemma first_new_none posted entries :
  first_new posted entries = None ->
  Forall (fun e => in_history posted (entry_link e)) entries.
Proof.
  unfold first_new. intros H. apply Forall_forall. intros e Hin.
  apply (find_none _ _ H) in Hin. apply any_url_eq_true.
  now destruct (any_url_eq posted (entry_link e)).
Qed.

Lemma tweet_first_unposted_find posted feed_url entries :
  TweetBot.first_unposted posted feed_url entries
  = match first_new posted entries with
    | Some e => Ok (TweetBot.article_of e)
    | None => Raise (Exception (lit "No new articles found in feed: " ++ feed_url))
    end.
Proof.
  unfold first_new. induction entries as [|e entries IH]; simpl;
    [reflexivity|].
  destruct (negb (any_url_eq posted (entry_link e))); [reflexivity | exact IH].
Qed.

Lemma discord_first_unposted_find env posted feed_url entries w :
  DiscordBot.first_unposted env posted feed_url entries w
  = match first_new posted entries with
    | Some e => (Ok (discord_article_of e (isoformat env (clock w))),
                 set_clock (S (clock w)) w)
    | None => (Raise (Exception (lit "No new articles found in feed: "
                                 ++ feed_url)), w)
    end.
Proof.
  unfold first_new. induction entries as [|e entries IH]; simpl;
    [reflexivity|].
  destruct (negb (any_url_eq posted (entry_link e))); [reflexivity | exact IH].
Qed.

Lemma tweet_fetch_run env feed_url w :
  TweetBot.get_latest_article env feed_url w
  = (match feedparser_parse env feed_url with
     | [] => Raise (Exception (lit "No entries found in feed: " ++ feed_url))
     | _ => match first_new (posted_articles w) (feedparser_parse env feed_url) with
            | Some e => Ok (TweetBot.article_of e)
            | None => Raise (Exception (lit "No new articles found in feed: "
                                        ++ feed_url))
            end
     end, w).
Proof.
  destruct (feedparser_parse env feed_url) eqn:E.
  - now rewrite get_latest_article_empty.
  - rewrite get_latest_article_scan by congruence.
    now rewrite tweet_first_unposted_find, E.
Qed.

Lemma discord_fetch_run env feed_url w :
  DiscordBot.get_latest_article env feed_url w
  = match feedparser_parse env feed_url with
    | [] => (Raise (Exception (lit "No entries found in feed: " ++ feed_url)), w)
    | _ => match first_new (posted_articles w) (feedparser_parse env feed_url) with
           | Some e => (Ok (discord_article_of e (isoformat env (clock w))),
                        set_clock (S (clock w)) w)
           | None => (Raise (Exception (lit "No new articles found in feed: "
                                        ++ feed_url)), w)
           end
    end.
Proof.
  unfold DiscordBot.get_latest_article.
  destruct (feedparser_parse env feed_url) eqn:E; [reflexivity|].
  unfold bind, gets. now rewrite discord_first_unposted_find.
Qed.

(** X5. The fetcher of src/discord.py and the one of src/__main__.py agree:
    on the same feed and history they raise the same exception or return
    articles with the same title, link, description and content.  The
    discord one adds the author, 'Unknown Author' when the entry has none,
    and the publication date, the reading of the clock when the entry has
    none; it reads the clock once when it returns an article and not at all
    when it raises, and changes nothing else. *)
Theorem fetchers_agree (env : Env) (feed_url : str) (w : World) :
  match fst (TweetBot.get_latest_article env feed_url w),
        DiscordBot.get_latest_article env feed_url w with
  | Ok a, (Ok d, w') =>
      DiscordBot.title d = TweetBot.title a
      /\ DiscordBot.link d = TweetBot.link a
      /\ DiscordBot.description d = TweetBot.description a
      /\ DiscordBot.content d = TweetBot.content a
      /\ w' = set_clock (S (clock w)) w
      /\ exists entry,
           In entry (feedparser_parse env feed_url)
           /\ entry_link entry = TweetBot.link a
           /\ DiscordBot.author d
              = match entry_author entry with
                | Some name => name
                | None => lit "Unknown Author"
                end
           /\ DiscordBot.published d
              = match entry_published entry with
                | Some day => day
                | None => isoformat env (clock w)
                end
  | Raise e, (Raise e', w') => e' = e /\ w' = w
  | _, _ => False
  end.
Proof.
  rewrite tweet_fetch_run, discord_fetch_run. cbn [fst].
  destruct (feedparser_parse env feed_url) as [|e0 es] eqn:E; [auto|].
  destruct (first_new (posted_articles w) (e0 :: es)) as [e|] eqn:Ef; [|auto].
  apply first_new_some in Ef as [Hin _].
  repeat split. exists e. repeat split. exact Hin.
Qed.

(** ** Many appends *)

Lemma save_each_run env urls w :
  exists added,
    save_each env urls w
    = (Ok tt,
       mkWorld (feed_files w)
               (match urls with
                | [] => history_file w
                | _ => Some (posted_articles w ++ added)
                end)
               (posted_articles w ++ added)
               (clock w + length urls) (log w) (outbox w) (slept w))
    /\ map url added = urls
    /\ map date added = map (isoformat env) (seq (clock w) (length urls)).
Proof.
  revert w. induction urls as [|u urls IH]; intros w.
  - exists []. simpl. rewrite app_nil_r, Nat.add_0_r. destruct w; auto.
  - cbn [save_each]. unfold bind at 1. rewrite save_history_run.
    match goal with |- context [save_each env urls ?w1] =>
      destruct (IH w1) as (added & -> & Hu & Hd) end.
    cbn [feed_files history_file posted_articles clock log outbox slept] in *.
    exists (mkHistoryRecord u (isoformat env (clock w)) :: added).
    split; [|split].
    + rewrite <- app_assoc. cbn [app length]. rewrite Nat.add_succ_r.
      destruct urls; [apply map_eq_nil in Hu; subst added|]; reflexivity.
    + cbn [map url]. now rewrite Hu.
    + cbn [map date length seq]. now rewrite Hd.
Qed.

(** X6. Appends in a row: after [save_history] for each url of a list, the
    history is the starting one followed by one record per call, in the
    order of the calls, dated by consecutive readings of the clock; when
    there was a call, the file holds exactly this list. *)
Theorem save_each_appends_in_order (env : Env) (urls : list str) (w : World) :
  let w' := snd (save_each env urls w) in
  fst (save_each env urls w) = Ok tt
  /\ exists added,
       posted_articles w' = posted_articles w ++ added
       /\ map url added = urls
       /\ map date added = map (isoformat env) (seq (clock w) (length urls))
       /\ match urls with
          | [] => history_file w' = history_file w
          | _ => fst (TweetBot.load_history w') = Ok (posted_articles w')
          end.
Proof.
  cbv zeta. destruct (save_each_run env urls w) as (added & -> & Hu & Hd).
  split; [reflexivity|]. exists added. cbn [snd posted_articles].
  repeat split; auto. destruct urls; reflexivity.
Qed.

Lemma in_history_app history added link :
  in_history (history ++ added) link
  <-> in_history history link \/ In link (map url added).
Proof.
  unfold in_history. split.
  - intros (post & Hin & E). apply in_app_or in Hin as [Hin | Hin].
    + left. now exists post.
    + right. rewrite <- E. now apply in_map.
  - intros [(post & Hin & E) | Hin].
    + exists post. split; [apply in_or_app; now left | assumption].
    + apply in_map_iff in Hin as (post & E & Hin).
      exists post. split; [apply in_or_app; now right | assumption].
Qed.

(** X7. What was appended is not fetched again: after [save_history] for
    each url of a list, no feed makes either fetcher return an article whose
    link is one of these urls or the url of a record that was there
    before. *)
Theorem saved_urls_never_fetched
  (env env' : Env) (urls : list str) (feed_url : str) (w : World) :
  let w' := snd (save_each env urls w) in
  match fst (TweetBot.get_latest_article env' feed_url w') with
  | Ok a => ~ In (TweetBot.link a) urls
            /\ ~ in_history (posted_articles w) (TweetBot.link a)
  | Raise _ => True
  end
  /\ match fst (DiscordBot.get_latest_article env' feed_url w') with
     | Ok d => ~ In (DiscordBot.link d) urls
               /\ ~ in_history (posted_articles w) (DiscordBot.link d)
     | Raise _ => True
     end.
Proof.
  cbv zeta. destruct (save_each_run env urls w) as (added & -> & Hu & _).
  cbn [snd]. rewrite tweet_fetch_run, discord_fetch_run.
  cbn [posted_articles].
  destruct (feedparser_parse env' feed_url) as [|e0 es]; cbn [fst];
    [split; exact I|].
  destruct (first_new (posted_articles w ++ added) (e0 :: es)) as [e|] eqn:Ef;
    cbn [fst]; [|split; exact I].
  apply first_new_some in Ef as [_ Hn].
  rewrite in_history_app, Hu in Hn. simpl. tauto.
Qed.

End FetchStoreFacts.

(* ===================================================================== *)
(** * The cycles of src/discord.py                                        *)
(* ===================================================================== *)

Module CycleFacts.

Import PyFacts FetcherFacts HistoryFacts MonadFacts SummarizerFacts LoopFacts
  FetchStoreFacts.

Lemma post_to_discord_run env article summary w :
  DiscordBot.post_to_discord env article summary w
  = (if response_ok (webhook_status env (discord_embed article summary))
     then Ok (webhook_status env (discord_embed article summary))
     else Raise (Exception (lit "Error posting to Discord")),
     add_outbox (SentWebhook (discord_embed article summary)) w).
Proof.
  unfold DiscordBot.post_to_discord. cbv zeta. rewrite bind_modify.
  fold (discord_embed article summary).
  destruct (response_ok _); reflexivity.
Qed.

(** Every cycle ends in one of the five ways. *)
Lemma cycle_cases env w :
  exists r w', DiscordBot.cycle env w = (r, w') /\ cycle_outcome env w r w'.
Proof.
  unfold DiscordBot.cycle.
  pose proof (get_random_feed_url_world env (lit "rss_feeds.txt") w) as Hw.
  destruct (DiscordBot.get_random_feed_url env (lit "rss_feeds.txt") w)
    as [[feed_url|e] w0] eqn:Es; simpl in Hw; subst w0.
  2:{ exists (Raise e), w. rewrite (bind_raise _ _ _ _ _ Es).
      split; [reflexivity|]. apply cycle_no_feed. now rewrite Es. }
  rewrite (bind_ok _ _ _ _ _ Es). unfold logging_info at 1.
  rewrite bind_modify. unfold bind at 1. rewrite discord_fetch_run.
  pose proof (tweet_fetch_run env feed_url w) as Ht.
  cbn [posted_articles add_log clock].
  destruct (feedparser_parse env feed_url) as [|e0 es] eqn:Ep.
  { eexists _, _. split; [reflexivity|].
    apply cycle_no_article; [now rewrite Es | now rewrite Ht]. }
  destruct (first_new (posted_articles w) (e0 :: es)) as [entry|] eqn:Ef.
  2:{ eexists _, _. split; [reflexivity|].
      apply cycle_no_article; [now rewrite Es | now rewrite Ht]. }
  set (article := discord_article_of entry (isoformat env (clock w))).
  unfold logging_info at 1. rewrite bind_modify.
  unfold bind at 1. rewrite discord_generate_summary_run. cbv zeta.
  destruct (Z.eqb_spec
              (status_code (generation_response env
                              (DiscordBot.summary_request env article))) 200)
    as [E200|E200].
  2:{ eexists _, _. split; [reflexivity|].
      apply (cycle_no_summary env w feed_url entry);
        [now rewrite Es | now rewrite Ep | exact E200]. }
  unfold logging_info at 1. rewrite bind_modify.
  unfold bind at 1. rewrite post_to_discord_run.
  destruct (response_ok _) eqn:Eok.
  - eexists _, _. split; [reflexivity|].
    apply (cycle_published env w feed_url entry);
      [now rewrite Es | now rewrite Ep | exact E200 | exact Eok].
  - eexists _, _. split; [reflexivity|].
    apply (cycle_not_published env w feed_url entry);
      [now rewrite Es | now rewrite Ep | exact E200 | exact Eok].
Qed.

Lemma loop_body_run env w r w' :
  DiscordBot.cycle env w = (r, w') ->
  DiscordBot.loop_body env w
  = (if interrupted env then Raise KeyboardInterrupt else Ok tt,
     after_cycle r w').
Proof.
  intros Ec. unfold DiscordBot.loop_body, bind at 1, try_except_Exception.
  pose proof (cycle_only_Exception env w) as Hc. rewrite Ec in *.
  destruct r as [[]|e]; simpl in Hc.
  - reflexivity.
  - rewrite (Hc e eq_refl). reflexivity.
Qed.

Lemma in_history_map history link :
  in_history history link <-> In link (map url history).
Proof.
  unfold in_history. rewrite in_map_iff. split; intros (post & A & B);
    exists post; auto.
Qed.

Lemma NoDup_snoc {A} (l : list A) (x : A) :
  NoDup l -> ~ In x l -> NoDup (l ++ [x]).
Proof.
  induction 1 as [|y l Hy Hl IH]; intros Hx; simpl.
  - constructor; [intros [] | constructor].
  - constructor.
    + rewrite in_app_iff. intros [H | [H | []]]; [contradiction|].
      apply Hx. now left.
    + apply IH. intros H. apply Hx. now right.
Qed.

(** What a cycle does to the history: nothing, or one record more for a
    link the history did not hold. *)
Lemma cycle_outcome_history env w r w' :
  cycle_outcome env w r w' ->
  (posted_articles w' = posted_articles w /\ history_file w' = history_file w)
  \/ (exists link now,
        ~ in_history (posted_articles w) link
        /\ posted_articles w' = posted_articles w ++ [mkHistoryRecord link now]
        /\ history_file w' = Some (posted_articles w')).
Proof.
  intros [e He | feed_url e Hs Hf | feed_url entry Hs Hf article response H200
          | feed_url entry Hs Hf article response summary H200 Hok
          | feed_url entry Hs Hf article response summary H200 Hok];
    try (left; split; reflexivity).
  right. apply first_new_some in Hf as [_ Hn].
  exists (DiscordBot.link article), (isoformat env (S (clock w))).
  split; [exact Hn|]. split; reflexivity.
Qed.

Lemma loop_body_history env w :
  let w' := snd (DiscordBot.loop_body env w) in
  (posted_articles w' = posted_articles w /\ history_file w' = history_file w)
  \/ (exists link now,
        ~ in_history (posted_articles w) link
        /\ posted_articles w' = posted_articles w ++ [mkHistoryRecord link now]
        /\ history_file w' = Some (posted_articles w')).
Proof.
  cbv zeta. destruct (cycle_cases env w) as (r & w1 & Ec & Ho).
  rewrite (loop_body_run _ _ _ _ Ec). cbn [snd].
  apply cycle_outcome_history in Ho.
  assert (Ep : posted_articles (after_cycle r w1) = posted_articles w1)
    by (destruct r; reflexivity).
  assert (Eh : history_file (after_cycle r w1) = history_file w1)
    by (destruct r; reflexivity).
  rewrite Ep, Eh. exact Ho.
Qed.

(** X8. The loop of src/discord.py records an article only after it was
    published.  In one iteration the history either stays as it is, the
    file too, or gets exactly one record more; in that case the generation
    endpoint answered 200, the webhook with the title and the link of the
    article and the stripped summary went out after the generation request
    and was answered with a status outside 400..599, the history did not
    hold the link before, and the file is rewritten to the new list. *)
Theorem loop_body_records_only_published (env : Env) (w : World) :
  let w' := snd (DiscordBot.loop_body env w) in
  (posted_articles w' = posted_articles w /\ history_file w' = history_file w)
  \/ (exists article summary now,
        outbox w' = outbox w
                    ++ [SentGeneration (DiscordBot.summary_request env article);
                        SentWebhook (discord_embed article summary)]
        /\ status_code (generation_response env
                          (DiscordBot.summary_request env article)) = 200%Z
        /\ summary = strip (choices_0_message_content
                              (generation_response env
                                 (DiscordBot.summary_request env article)))
        /\ embed_url (discord_embed article summary) = DiscordBot.link article
        /\ response_ok (webhook_status env (discord_embed article summary))
           = true
        /\ ~ in_history (posted_articles w) (DiscordBot.link article)
        /\ posted_articles w'
           = posted_articles w
             ++ [mkHistoryRecord (DiscordBot.link article) now]
        /\ history_file w' = Some (posted_articles w')).
Proof.
  cbv zeta. destruct (cycle_cases env w) as (r & w1 & Ec & Ho).
  rewrite (loop_body_run _ _ _ _ Ec). cbn [snd].
  destruct Ho as [e He | feed_url e Hs Hf | feed_url entry Hs Hf article response H200
          | feed_url entry Hs Hf article response summary H200 Hok
          | feed_url entry Hs Hf article response summary H200 Hok];
    try (left; split; reflexivity).
  right. exists article, summary, (isoformat env (S (clock w))).
  apply first_new_some in Hf as [_ Hn].
  split; [cbn; now rewrite <- app_assoc|].
  split; [exact H200|]. split; [reflexivity|]. split; [reflexivity|].
  split; [exact Hok|]. split; [exact Hn|]. split; reflexivity.
Qed.

(** ** The loop and main *)

Lemma while_True_cons env rest w :
  DiscordBot.while_True (env :: rest) w
  = if interrupted env
    then (Raise KeyboardInterrupt, snd (DiscordBot.loop_body env w))
    else DiscordBot.while_True rest (snd (DiscordBot.loop_body env w)).
Proof.
  cbn [DiscordBot.while_True]. unfold bind at 1.
  pose proof (loop_body_result env w) as H.
  destruct (DiscordBot.loop_body env w) as [[[]|e] w']; simpl in *;
    destruct (interrupted env); congruence.
Qed.

(** A relation that every iteration keeps holds over the loop. *)
Lemma while_True_keeps (R : World -> World -> Prop) :
  (forall w, R w w) ->
  (forall w1 w2 w3, R w1 w2 -> R w2 w3 -> R w1 w3) ->
  (forall env w, R w (snd (DiscordBot.loop_body env w))) ->
  forall envs w, R w (snd (DiscordBot.while_True envs w)).
Proof.
  intros Hr Ht Hs envs. induction envs as [|env envs IH]; intros w.
  - apply Hr.
  - rewrite while_True_cons. destruct (interrupted env).
    + apply Hs.
    + eapply Ht; [apply Hs | apply IH].
Qed.

Lemma init_run w :
  TweetBot.init w = (Ok tt, set_posted_articles (stored_history w) w).
Proof.
  unfold TweetBot.init, bind, TweetBot.load_history, stored_history.
  destruct (history_file w); reflexivity.
Qed.

Lemma discord_main_run envs w :
  let w0 := set_posted_articles (stored_history w) w in
  DiscordBot.main envs w
  = (Ok tt,
     match fst (DiscordBot.while_True envs w0) with
     | Ok _ => snd (DiscordBot.while_True envs w0)
     | Raise _ => add_log (INFO, lit "Bot stopped by user")
                          (snd (DiscordBot.while_True envs w0))
     end).
Proof.
  cbv zeta. unfold DiscordBot.main, try_except_KeyboardInterrupt_Exception.
  unfold bind at 1. unfold DiscordBot.init. rewrite init_run.
  pose proof (while_True_result envs
                (set_posted_articles (stored_history w) w)) as H.
  destruct (DiscordBot.while_True envs _) as [[[]|e] w']; simpl in *.
  - reflexivity.
  - destruct H as [H | H]; [discriminate|]. injection H as ->. reflexivity.
Qed.

Lemma discord_main_keeps (R : World -> World -> Prop) :
  (forall w, R w w) ->
  (forall w1 w2 w3, R w1 w2 -> R w2 w3 -> R w1 w3) ->
  (forall env w, R w (snd (DiscordBot.loop_body env w))) ->
  (forall w msg, R w (add_log msg w)) ->
  forall envs w,
    R (set_posted_articles (stored_history w) w) (snd (DiscordBot.main envs w)).
Proof.
  intros Hr Ht Hs Hl envs w. rewrite discord_main_run. cbv zeta. cbn [snd].
  pose proof (while_True_keeps R Hr Ht Hs envs
                (set_posted_articles (stored_history w) w)) as H.
  destruct (fst (DiscordBot.while_True envs _)); [exact H|].
  eapply Ht; [exact H | apply Hl].
Qed.

(** X9. The run of src/discord.py never records a url twice: when the
    history file holds no url twice at the start, neither the history of
    the bot nor the file does at the end, whatever the feeds, the draws and
    the answers of the endpoints are. *)
Theorem discord_main_no_duplicate_url (envs : list Env) (w : World) :
  NoDup (map url (stored_history w)) ->
  let w' := snd (DiscordBot.main envs w) in
  NoDup (map url (posted_articles w'))
  /\ NoDup (map url (stored_history w')).
Proof.
  intros H0. cbv zeta.
  pose proof (discord_main_keeps
                (fun w1 w2 =>
                   stored_history w1 = posted_articles w1
                   /\ NoDup (map url (posted_articles w1)) ->
                   stored_history w2 = posted_articles w2
                   /\ NoDup (map url (posted_articles w2)))) as K.
  destruct (K (fun _ H => H) (fun _ _ _ A B H => B (A H))) with (envs := envs) (w := w)
    as [Es Hn].
  - intros env w1 [Es Hn].
    destruct (loop_body_history env w1) as [[Ep Eh] | (l & n & Hl & Ep & Eh)].
    + unfold stored_history in *. now rewrite Ep, Eh.
    + unfold stored_history. rewrite Eh. split; [reflexivity|].
      rewrite Ep, map_app. apply NoDup_snoc; [assumption|].
      now rewrite <- in_history_map.
  - intros w1 msg H. exact H.
  - split; [now destruct (history_file w) | exact H0].
  - split; [assumption | now rewrite Es].
Qed.

Lemma discord_main_no_duplicate_url_witness :
  let w' := snd (DiscordBot.main [Samples.env_ok; Samples.env_500] Samples.worldA) in
  NoDup (map url (posted_articles w'))
  /\ NoDup (map url (stored_history w')).
Proof.
  apply (discord_main_no_duplicate_url [Samples.env_ok; Samples.env_500]
           Samples.worldA).
  repeat constructor. intros [].
Defined.

(** X10. At the end of a run of src/discord.py the history file holds
    exactly the history of the bot: a run that starts afterwards loads the
    same list. *)
Theorem discord_main_file_in_step (envs : list Env) (w : World) :
  let w' := snd (DiscordBot.main envs w) in
  stored_history w' = posted_articles w'
  /\ fst (DiscordBot.load_history w') = Ok (posted_articles w').
Proof.
  cbv zeta.
  assert (H : stored_history (snd (DiscordBot.main envs w))
              = posted_articles (snd (DiscordBot.main envs w))).
  { apply (discord_main_keeps
             (fun w1 w2 => stored_history w1 = posted_articles w1 ->
                           stored_history w2 = posted_articles w2)).
    - auto.
    - auto.
    - intros env w1 Es.
      destruct (loop_body_history env w1) as [[Ep Eh] | (l & n & Hl & Ep & Eh)].
      + unfold stored_history in *. now rewrite Ep, Eh.
      + unfold stored_history. now rewrite Eh.
    - intros w1 msg E. exact E.
    - now destruct (history_file w). }
  split; [exact H|].
  unfold DiscordBot.load_history, TweetBot.load_history.
  unfold stored_history in H.
  destruct (history_file (snd (DiscordBot.main envs w))); simpl; now rewrite H.
Qed.

Lemma cycles_run_le envs : cycles_run envs <= length envs.
Proof.
  induction envs as [|env envs IH]; simpl; [lia|].
  destruct (interrupted env); lia.
Qed.

Lemma while_True_appends envs w :
  exists added,
    posted_articles (snd (DiscordBot.while_True envs w))
    = posted_articles w ++ added
    /\ length added <= cycles_run envs.
Proof.
  revert w. induction envs as [|env envs IH]; intros w.
  - exists []. simpl. now rewrite app_nil_r.
  - rewrite while_True_cons. cbn [cycles_run].
    destruct (loop_body_history env w) as [[Ep _] | (l & n & _ & Ep & _)];
      destruct (interrupted env).
    + exists []. cbn [snd]. rewrite Ep, app_nil_r. split; [reflexivity|].
      simpl. lia.
    + destruct (IH (snd (DiscordBot.loop_body env w))) as (added & E & Hl).
      exists added. rewrite E, Ep. split; [reflexivity | lia].
    + exists [mkHistoryRecord l n]. cbn [snd]. rewrite Ep.
      split; [reflexivity|]. simpl. lia.
    + destruct (IH (snd (DiscordBot.loop_body env w))) as (added & E & Hl).
      exists (mkHistoryRecord l n :: added). rewrite E, Ep, <- app_assoc.
      split; [reflexivity | simpl; lia].
Qed.

(** X11. The history only grows, by at most one record for each cycle that
    ran: at the end of a run of src/discord.py the history is the list
    loaded at the start, unchanged and in place, followed by the records
    added. *)
Theorem discord_main_append_only (envs : list Env) (w : World) :
  exists added,
    posted_articles (snd (DiscordBot.main envs w)) = stored_history w ++ added
    /\ length added <= cycles_run envs
    /\ cycles_run envs <= length envs.
Proof.
  rewrite discord_main_run. cbv zeta. cbn [snd].
  destruct (while_True_appends envs (set_posted_articles (stored_history w) w))
    as (added & E & Hl).
  exists added. split; [|split; [exact Hl | apply cycles_run_le]].
  destruct (fst (DiscordBot.while_True envs _)); exact E.
Qed.

Lemma while_True_interrupt envs w :
  DiscordBot.while_True envs w
  = DiscordBot.while_True (firstn (cycles_run envs) envs) w
  /\ fst (DiscordBot.while_True envs w)
     = (if existsb interrupted envs then Raise KeyboardInterrupt else Ok tt)
  /\ slept (snd (DiscordBot.while_True envs w))
     = slept w ++ repeat 3 (cycles_run envs).
Proof.
  revert w. induction envs as [|env envs IH]; intros w.
  - simpl. now rewrite app_nil_r.
  - assert (Hs : slept (snd (DiscordBot.loop_body env w)) = slept w ++ [3]).
    { destruct (cycle_cases env w) as (r & w1 & Ec & Ho).
      rewrite (loop_body_run _ _ _ _ Ec). cbn [snd].
      destruct Ho; destruct (interrupted env); reflexivity. }
    cbn [cycles_run existsb]. destruct (interrupted env) eqn:Ei.
    + cbn [firstn]. rewrite !while_True_cons, Ei. cbn [fst snd orb].
      repeat split. exact Hs.
    + cbn [firstn orb]. rewrite !while_True_cons, Ei.
      destruct (IH (snd (DiscordBot.loop_body env w))) as (E1 & E2 & E3).
      split; [exact E1|]. split; [exact E2|].
      rewrite E3, Hs, <- app_assoc. reflexivity.
Qed.

(** X12. Started on a history file that is absent or holds a history,
    [main] of src/discord.py ends only by the interrupt and ends cleanly:
    nothing raised in a cycle leaves it; the cycles after the one whose
    delay is interrupted do not run; each cycle that ran slept the delay of
    3 seconds once, a failed one too; and on an interrupt the last record
    logged is "Bot stopped by user" and [main] returns. *)
Theorem discord_main_stops_on_interrupt (envs : list Env) (w : World) :
  let w' := snd (DiscordBot.main envs w) in
  fst (DiscordBot.main envs w) = Ok tt
  /\ DiscordBot.main envs w
     = DiscordBot.main (firstn (cycles_run envs) envs) w
  /\ slept w' = slept w ++ repeat 3 (cycles_run envs)
  /\ if existsb interrupted envs
     then exists l, log w' = l ++ [(INFO, lit "Bot stopped by user")]
     else fst (DiscordBot.while_True envs
                 (set_posted_articles (stored_history w) w)) = Ok tt.
Proof.
  cbv zeta. rewrite !discord_main_run. cbv zeta. cbn [fst snd].
  destruct (while_True_interrupt envs
              (set_posted_articles (stored_history w) w)) as (E1 & E2 & E3).
  split; [reflexivity|]. split; [now rewrite <- E1|].
  rewrite E2. destruct (existsb interrupted envs).
  - split; [exact E3|]. eexists. reflexivity.
  - split; [exact E3 | reflexivity].
Qed.

End CycleFacts.

(* ===================================================================== *)
(** * The single-shot main of src/__main__.py and src/local.py            *)
(* ===================================================================== *)

Module ShotFacts.

Import PyFacts FetcherFacts HistoryFacts MonadFacts FetchStoreFacts CycleFacts.

Lemma local_main_shape env :
  LocalBot.main env
  = single_shot LocalBot.tweet_request (lit "Ollama API error: ")
                LocalBot.ensure_url env.
Proof. reflexivity. Qed.

Lemma tweet_main_shape env :
  TweetBot.main env
  = single_shot TweetBot.tweet_request (lit "XAI API error: ")
                (fun tweet _ => tweet) env.
Proof. reflexivity. Qed.

Lemma generation_call_run env request label w :
  generation_call env request label w
  = (if (status_code (generation_response env request) =? 200)%Z
     then Ok (strip (choices_0_message_content (generation_response env request)))
     else Raise (Exception (label ++ text (generation_response env request))),
     add_outbox (SentGeneration request) w).
Proof.
  unfold generation_call. rewrite bind_modify. cbv zeta.
  destruct (status_code _ =? 200)%Z; reflexivity.
Qed.

Lemma post_tweet_run env tweet_text w :
  TweetBot.post_tweet env tweet_text w
  = (if (tweet_status_code (tweet_response env tweet_text) =? 201)%Z
     then Ok (json_repr (tweet_response env tweet_text))
     else Raise (Exception (lit "Error posting tweet: "
                            ++ tweet_error_text (tweet_response env tweet_text))),
     add_outbox (SentTweet tweet_text) w).
Proof.
  unfold TweetBot.post_tweet. rewrite bind_modify. cbv zeta.
  destruct (tweet_status_code _ =? 201)%Z; reflexivity.
Qed.

Lemma tweet_selector_frame env path w l :
  TweetBot.get_random_feed_url env path (set_posted_articles l w)
  = (fst (TweetBot.get_random_feed_url env path w), set_posted_articles l w).
Proof.
  unfold TweetBot.get_random_feed_url, bind, read_text, lift.
  cbn [feed_files set_posted_articles].
  destruct (feed_files w path); [|reflexivity].
  destruct (TweetBot.valid_feeds_loop _ _); reflexivity.
Qed.

Lemma try_except_raise {A} (body : M A) handler w e w' :
  body w = (Raise e, w') -> is_Exception e = true ->
  try_except_Exception body handler w = handler e w'.
Proof. unfold try_except_Exception. now intros -> ->. Qed.

Lemma try_except_ok {A} (body : M A) handler w a w' :
  body w = (Ok a, w') -> try_except_Exception body handler w = (Ok a, w').
Proof. unfold try_except_Exception. now intros ->. Qed.

(** The steps of a run up to the fetcher, the generation call and the
    posting. *)
Ltac shot_to_fetch Es Hf :=
  unfold bind at 1; rewrite init_run;
  unfold bind at 1; rewrite tweet_selector_frame, Es;
  unfold logging_info at 1; rewrite bind_modify;
  unfold bind at 1; rewrite Hf by reflexivity.

Ltac shot_to_call Es Hf E200 :=
  shot_to_fetch Es Hf;
  unfold logging_info at 1; rewrite bind_modify;
  unfold bind at 1; rewrite generation_call_run, E200.

Ltac shot_to_post Es Hf E200 E201 :=
  shot_to_call Es Hf E200;
  unfold logging_info at 1; rewrite bind_modify; cbv zeta;
  unfold bind at 1; rewrite post_tweet_run, E201.

(** Every single-shot run ends in one of the five ways. *)
Lemma single_shot_cases request_of label finish env w :
  exists r w',
    single_shot request_of label finish env w = (r, w')
    /\ shot_outcome request_of label finish env w r w'.
Proof.
  assert (Hfail : forall (body : M unit) e w1,
             body w = (Raise e, w1) -> is_Exception e = true ->
             try_except_Exception body
               (fun e => logging_error (lit "Error: " ++ str_of_exn e) ;; raise e)
               w = (Raise e, shot_failed e w1)).
  { intros body e w1 Hb He. now rewrite (try_except_raise _ _ _ _ _ Hb He). }
  unfold single_shot.
  destruct (fst (TweetBot.get_random_feed_url env (lit "rss_feeds.txt") w))
    as [feed_url|e] eqn:Es.
  2:{ exists (Raise e),
             (shot_failed e (set_posted_articles (stored_history w) w)).
      split; [|apply shot_no_feed; exact Es].
      apply Hfail.
      - unfold bind at 1. rewrite init_run.
        unfold bind at 1. rewrite tweet_selector_frame, Es. reflexivity.
      - revert Es. unfold TweetBot.get_random_feed_url, bind, read_text, lift.
        destruct (feed_files w (lit "rss_feeds.txt")); simpl.
        + rewrite SelectorOutcome.tweet_loop_map. simpl. intros E.
          now apply LoopFacts.random_choice_raises in E.
        + intros E. injection E as <-. reflexivity. }
  assert (Hf : forall w1,
             posted_articles w1 = stored_history w ->
             TweetBot.get_latest_article env feed_url w1
             = (match feedparser_parse env feed_url with
                | [] => Raise (Exception (lit "No entries found in feed: "
                                          ++ feed_url))
                | _ => match first_new (stored_history w)
                               (feedparser_parse env feed_url) with
                       | Some e => Ok (TweetBot.article_of e)
                       | None => Raise (Exception
                                          (lit "No new articles found in feed: "
                                           ++ feed_url))
                       end
                end, w1)).
  { intros w1 E. now rewrite tweet_fetch_run, E. }
  pose proof (Hf (set_posted_articles (stored_history w) w) eq_refl) as Hf0.
  destruct (feedparser_parse env feed_url) as [|e0 es] eqn:Ep.
  { eexists _, _. split.
    - apply Hfail; [shot_to_fetch Es Hf; reflexivity|]. reflexivity.
    - apply shot_no_article; [exact Es | now rewrite Hf0]. }
  destruct (first_new (stored_history w) (e0 :: es)) as [entry|] eqn:Ef.
  2:{ eexists _, _. split.
      - apply Hfail; [shot_to_fetch Es Hf; reflexivity|]. reflexivity.
      - apply shot_no_article; [exact Es | now rewrite Hf0]. }
  set (article := TweetBot.article_of entry) in *.
  destruct (status_code (generation_response env (request_of env article))
            =? 200)%Z eqn:E200.
  2:{ eexists _, _. split.
      - apply Hfail; [shot_to_call Es Hf E200; reflexivity|]. reflexivity.
      - apply Z.eqb_neq in E200.
        apply (shot_no_tweet request_of label finish env w feed_url entry);
          [exact Es | now rewrite Ep | exact E200]. }
  destruct (tweet_status_code
              (tweet_response env
                 (finish (strip (choices_0_message_content
                                   (generation_response env
                                      (request_of env article))))
                         (TweetBot.link article))) =? 201)%Z eqn:E201.
  - eexists _, _. split.
    + apply try_except_ok. shot_to_post Es Hf E200 E201. reflexivity.
    + apply Z.eqb_eq in E200, E201.
      apply (shot_posted request_of label finish env w feed_url entry);
        [exact Es | now rewrite Ep | exact E200 | exact E201].
  - eexists _, _. split.
    + apply Hfail; [shot_to_post Es Hf E200 E201; reflexivity|]. reflexivity.
    + apply Z.eqb_eq in E200. apply Z.eqb_neq in E201.
      apply (shot_not_posted request_of label finish env w feed_url entry);
        [exact Es | now rewrite Ep | exact E200 | exact E201].
Qed.

Lemma tweet_selector_raises env path w e :
  fst (TweetBot.get_random_feed_url env path w) = Raise e ->
  is_Exception e = true.
Proof.
  unfold TweetBot.get_random_feed_url, bind, read_text, lift.
  destruct (feed_files w path); simpl.
  - rewrite SelectorOutcome.tweet_loop_map. simpl.
    apply LoopFacts.random_choice_raises.
  - intros E. injection E as <-. reflexivity.
Qed.

Lemma tweet_fetch_raises env feed_url w e :
  fst (TweetBot.get_latest_article env feed_url w) = Raise e ->
  is_Exception e = true.
Proof.
  rewrite tweet_fetch_run. cbn [fst].
  destruct (feedparser_parse env feed_url);
    [|destruct (first_new _ _); [discriminate|]];
    intros E; injection E as <-; reflexivity.
Qed.

(** The ledger of a single-shot run, whatever the request and the last
    touch to the tweet are. *)
Lemma shot_outcome_ledger request_of label finish env w r w' :
  shot_outcome request_of label finish env w r w' ->
  match r with
  | Ok _ =>
      exists article now,
        let tweet :=
          strip (choices_0_message_content
                   (generation_response env (request_of env article))) in
        let posted := finish tweet (TweetBot.link article) in
        ~ in_history (stored_history w) (TweetBot.link article)
        /\ outbox w' = outbox w ++ [SentGeneration (request_of env article);
                                    SentTweet posted]
        /\ tweet_status_code (tweet_response env posted) = 201%Z
        /\ posted_articles w'
           = stored_history w ++ [mkHistoryRecord (TweetBot.link article) now]
        /\ history_file w' = Some (posted_articles w')
  | Raise e =>
      is_Exception e = true
      /\ history_file w' = history_file w
      /\ posted_articles w' = stored_history w
      /\ (exists l, log w' = l ++ [(ERROR, lit "Error: " ++ str_of_exn e)])
      /\ exists sent,
           outbox w' = outbox w ++ sent
           /\ forall t, In (SentTweet t) sent ->
                        tweet_status_code (tweet_response env t) <> 201%Z
  end.
Proof.
  intros [e He | feed_url e Hs Hf | feed_url entry Hs Hf article response H200
          | feed_url entry Hs Hf article response tweet posted H200 H201
          | feed_url entry Hs Hf article response tweet posted H200 H201].
  - split; [now apply tweet_selector_raises in He|].
    split; [reflexivity|]. split; [reflexivity|].
    split; [eexists; reflexivity|]. exists []. split.
    + cbn. now rewrite app_nil_r.
    + intros t [].
  - split; [now apply tweet_fetch_raises in Hf|].
    split; [reflexivity|]. split; [reflexivity|].
    split; [eexists; reflexivity|]. exists []. split.
    + cbn. now rewrite app_nil_r.
    + intros t [].
  - split; [reflexivity|]. split; [reflexivity|]. split; [reflexivity|].
    split; [eexists; reflexivity|].
    exists [SentGeneration (request_of env article)]. split; [reflexivity|].
    intros t [H | []]. discriminate.
  - split; [reflexivity|]. split; [reflexivity|]. split; [reflexivity|].
    split; [eexists; reflexivity|].
    exists [SentGeneration (request_of env article); SentTweet posted].
    split; [cbn; now rewrite <- app_assoc|].
    intros t [H | [H | []]]; [discriminate|]. injection H as <-. exact H201.
  - exists article, (isoformat env (clock w)). cbv zeta.
    apply first_new_some in Hf as [_ Hn].
    split; [exact Hn|]. split; [cbn; now rewrite <- app_assoc|].
    split; [exact H201|]. split; reflexivity.
Qed.

(** X13. The ledger of [main] of src/local.py.  When it returns, the
    history loaded at the start did not hold the link of the article; one
    generation request and one tweet went out, the tweet being the stripped
    generated text passed through the URL enforcement; the tweet endpoint
    answered 201; and the history is the loaded one followed by one record
    for the link, in memory and in the file.  When it raises, what is
    raised is the exception that occurred, logged last as "Error: ..."; the
    history file is untouched; and no tweet that went out was accepted. *)
Theorem local_main_ledger (env : Env) (w : World) :
  let w' := snd (LocalBot.main env w) in
  match fst (LocalBot.main env w) with
  | Ok _ =>
      exists article now,
        let tweet :=
          strip (choices_0_message_content
                   (generation_response env (LocalBot.tweet_request env article))) in
        let posted := LocalBot.ensure_url tweet (TweetBot.link article) in
        ~ in_history (stored_history w) (TweetBot.link article)
        /\ outbox w'
           = outbox w ++ [SentGeneration (LocalBot.tweet_request env article);
                          SentTweet posted]
        /\ tweet_status_code (tweet_response env posted) = 201%Z
        /\ posted_articles w'
           = stored_history w ++ [mkHistoryRecord (TweetBot.link article) now]
        /\ history_file w' = Some (posted_articles w')
  | Raise e =>
      is_Exception e = true
      /\ history_file w' = history_file w
      /\ posted_articles w' = stored_history w
      /\ (exists l, log w' = l ++ [(ERROR, lit "Error: " ++ str_of_exn e)])
      /\ exists sent,
           outbox w' = outbox w ++ sent
           /\ forall t, In (SentTweet t) sent ->
                        tweet_status_code (tweet_response env t) <> 201%Z
  end.
Proof.
  cbv zeta. rewrite local_main_shape.
  destruct (single_shot_cases LocalBot.tweet_request (lit "Ollama API error: ")
              LocalBot.ensure_url env w) as (r & w' & -> & Ho).
  cbn [fst snd]. exact (shot_outcome_ledger _ _ _ _ _ _ _ Ho).
Qed.

(** X14. The ledger of [main] of src/__main__.py: as for src/local.py,
    except that the tweet that goes out is the stripped generated text as
    it is, with no check that it holds the link. *)
Theorem tweet_main_ledger (env : Env) (w : World) :
  let w' := snd (TweetBot.main env w) in
  match fst (TweetBot.main env w) with
  | Ok _ =>
      exists article now,
        let posted :=
          strip (choices_0_message_content
                   (generation_response env (TweetBot.tweet_request env article))) in
        ~ in_history (stored_history w) (TweetBot.link article)
        /\ outbox w'
           = outbox w ++ [SentGeneration (TweetBot.tweet_request env article);
                          SentTweet posted]
        /\ tweet_status_code (tweet_response env posted) = 201%Z
        /\ posted_articles w'
           = stored_history w ++ [mkHistoryRecord (TweetBot.link article) now]
        /\ history_file w' = Some (posted_articles w')
  | Raise e =>
      is_Exception e = true
      /\ history_file w' = history_file w
      /\ posted_articles w' = stored_history w
      /\ (exists l, log w' = l ++ [(ERROR, lit "Error: " ++ str_of_exn e)])
      /\ exists sent,
           outbox w' = outbox w ++ sent
           /\ forall t, In (SentTweet t) sent ->
                        tweet_status_code (tweet_response env t) <> 201%Z
  end.
Proof.
  cbv zeta. rewrite tweet_main_shape.
  destruct (single_shot_cases TweetBot.tweet_request (lit "XAI API error: ")
              (fun tweet _ => tweet) env w) as (r & w' & -> & Ho).
  cbn [fst snd]. exact (shot_outcome_ledger _ _ _ _ _ _ _ Ho).
Qed.

Lemma shot_keeps_nodup request_of label finish env w :
  NoDup (map url (stored_history w)) ->
  NoDup (map url (stored_history
                    (snd (single_shot request_of label finish env w)))).
Proof.
  intros H.
  destruct (single_shot_cases request_of label finish env w)
    as (r & w' & -> & Ho).
  cbn [snd]. apply shot_outcome_ledger in Ho. destruct r as [[]|e].
  - destruct Ho as (article & now & Hn & _ & _ & Ep & Eh).
    unfold stored_history at 1. rewrite Eh, Ep, map_app.
    apply NoDup_snoc; [exact H|]. now rewrite <- in_history_map.
  - destruct Ho as (_ & Eh & _). unfold stored_history in *. now rewrite Eh.
Qed.

(** X15. Run after run, the single-shot bots never record a url twice:
    when the history file holds no url twice before [main] of
    src/__main__.py or of src/local.py runs, it holds none twice
    afterwards, whether the run succeeded or raised. *)
Theorem single_shot_no_duplicate_url (env : Env) (w : World) :
  NoDup (map url (stored_history w)) ->
  NoDup (map url (stored_history (snd (TweetBot.main env w))))
  /\ NoDup (map url (stored_history (snd (LocalBot.main env w)))).
Proof.
  intros H. rewrite tweet_main_shape, local_main_shape.
  split; now apply shot_keeps_nodup.
Qed.

Lemma single_shot_no_duplicate_url_witness :
  NoDup (map url (stored_history (snd (TweetBot.main Samples.env_ok Samples.worldA))))
  /\ NoDup (map url (stored_history (snd (LocalBot.main Samples.env_ok Samples.worldA)))).
Proof.
  apply (single_shot_no_duplicate_url Samples.env_ok Samples.worldA).
  repeat constructor. intros [].
Defined.

End ShotFacts.

(* ===================================================================== *)
(** * The generated text and the prompt                                   *)
(* ===================================================================== *)

Module GenerationFacts.

Import PyFacts MonadFacts SummarizerFacts StripFacts ShotFacts UrlFacts.

Lemma generation_call_stripped env request label w :
  match fst (generation_call env request label w) with
  | Ok t => no_outer_space t /\ status_code (generation_response env request) = 200%Z
  | Raise e => e = Exception (label ++ text (generation_response env request))
               /\ status_code (generation_response env request) <> 200%Z
  end
  /\ outbox (snd (generation_call env request label w))
     = outbox w ++ [SentGeneration request].
Proof.
  rewrite generation_call_run. cbn [fst snd]. split; [|reflexivity].
  destruct (Z.eqb_spec (status_code (generation_response env request)) 200).
  - split; [apply strip_no_outer_space | assumption].
  - split; [reflexivity | assumption].
Qed.

(** X16. What the four generation calls return neither begins nor ends
    with whitespace, and they return only on status 200; on another status
    they raise an Exception whose message is the label of the variant
    ("XAI API error: " in src/__main__.py, "Ollama API error: " in the
    others) followed by the body of the response.  Each call sends one
    request, whatever the answer. *)
Theorem generated_text_is_stripped (env : Env) (w : World)
  (a : TweetBot.Article) (d : DiscordBot.Article) :
  let outcome (request : Request) (label : str) (r : result str) (w' : World) :=
    match r with
    | Ok t => no_outer_space t
              /\ status_code (generation_response env request) = 200%Z
    | Raise e => e = Exception (label ++ text (generation_response env request))
                 /\ status_code (generation_response env request) <> 200%Z
    end
    /\ outbox w' = outbox w ++ [SentGeneration request] in
  outcome (TweetBot.tweet_request env a) (lit "XAI API error: ")
          (fst (TweetBot.generate_tweet env a w))
          (snd (TweetBot.generate_tweet env a w))
  /\ outcome (LocalBot.tweet_request env a) (lit "Ollama API error: ")
             (fst (LocalBot.generate_tweet env a w))
             (snd (LocalBot.generate_tweet env a w))
  /\ outcome (DiscordBot.summary_request env d) (lit "Ollama API error: ")
             (fst (DiscordBot.generate_summary env d w))
             (snd (DiscordBot.generate_summary env d w))
  /\ outcome (SlackBot.summary_request env d) (lit "Ollama API error: ")
             (fst (SlackBot.generate_summary env d w))
             (snd (SlackBot.generate_summary env d w)).
Proof.
  cbv zeta.
  split; [exact (generation_call_stripped env (TweetBot.tweet_request env a)
                   (lit "XAI API error: ") w)|].
  split; [exact (generation_call_stripped env (LocalBot.tweet_request env a)
                   (lit "Ollama API error: ") w)|].
  split; [exact (generation_call_stripped env (DiscordBot.summary_request env d)
                   (lit "Ollama API error: ") w)|].
  exact (generation_call_stripped env (SlackBot.summary_request env d)
           (lit "Ollama API error: ") w).
Qed.

Lemma truncated_length (c : str) :
  length (slice_to c 500 ++ (if 500 <? length c then lit "..." else []))
  <= 503
  /\ firstn 500 (slice_to c 500 ++ (if 500 <? length c then lit "..." else []))
     = firstn 500 c.
Proof.
  unfold slice_to. destruct (Nat.ltb_spec 500 (length c)) as [H|H].
  - rewrite length_app, firstn_length_le by lia. split; [simpl; lia|].
    rewrite firstn_app, firstn_firstn, firstn_length_le by lia.
    rewrite Nat.sub_diag, Nat.min_id. cbn [firstn]. apply app_nil_r.
  - rewrite app_nil_r, !(firstn_all2 c H). split; [lia | reflexivity].
Qed.

(** X17. The prompt of [generate_summary] is bounded: the content sent has
    at most 503 characters and begins with the first 500 characters of the
    stripped concatenation, and the user message has at most 520
    characters more than the title, however long the article is; in
    src/discord.py and in src/slack.py. *)
Theorem summary_prompt_bounded (article : DiscordBot.Article) :
  length (DiscordBot.truncated_content article) <= 503
  /\ firstn 500 (DiscordBot.truncated_content article)
     = firstn 500 (DiscordBot.combined_content article)
  /\ length (DiscordBot.user_prompt article)
     <= length (DiscordBot.title article) + 520
  /\ SlackBot.user_prompt article = DiscordBot.user_prompt article.
Proof.
  destruct (truncated_length (DiscordBot.combined_content article)) as [Hl Hf].
  split; [exact Hl|]. split; [exact Hf|]. split; [|reflexivity].
  unfold DiscordBot.user_prompt. rewrite !length_app.
  change (length (DiscordBot.truncated_content article) <= 503) in Hl.
  change (length newline) with 1.
  change (length (lit "Title: ")) with 7.
  change (length (lit "Content: ")) with 9. lia.
Qed.

(** X18. The URL enforcement of src/local.py is idempotent: applied to its
    own result with the same link it changes nothing. *)
Theorem ensure_url_idempotent (tweet link : str) :
  LocalBot.ensure_url (LocalBot.ensure_url tweet link) link
  = LocalBot.ensure_url tweet link.
Proof.
  unfold LocalBot.ensure_url at 1. now rewrite ensure_url_contains.
Qed.

End GenerationFacts.

(* ===================================================================== *)
(** * More runs on the sample worlds                                      *)
(* ===================================================================== *)

Module MoreExamples.

(** [main] of src/__main__.py posts the generated text as it is. *)
Example tweet_main_run :
  let w := snd (TweetBot.main Samples.env_ok Samples.worldA) in
  fst (TweetBot.main Samples.env_ok Samples.worldA) = Ok tt
  /\ outbox w
     = [SentGeneration (TweetBot.tweet_request Samples.env_ok
                          (TweetBot.mkArticle (lit "Title B") (lit "B")
                                              (lit "about B") (lit "body B")));
        SentTweet (lit "B is out. [URL]")]
  /\ history_file w
     = Some (Samples.historyA ++ [mkHistoryRecord (lit "B") (Samples.stamp 0)]).
Proof. repeat split. Qed.

(** The generation endpoint answers 500: the error is logged and raised
    again, and the history file stays. *)
Example tweet_main_fails :
  let w := snd (TweetBot.main Samples.env_500 Samples.worldA) in
  fst (TweetBot.main Samples.env_500 Samples.worldA)
  = Raise (Exception (lit "XAI API error: upstream down"))
  /\ last (log w) (INFO, []) = (ERROR, lit "Error: XAI API error: upstream down")
  /\ history_file w = Some Samples.historyA.
Proof. repeat split. Qed.

(** A run of src/discord.py of two cycles, interrupted in the second. *)
Example discord_main_interrupted :
  let stop :=
    mkEnv (lit "secret") 0 (fun _ => [Samples.entryA; Samples.entryB])
          Samples.stamp
          (fun _ => mkResponse 200 [] (lit "late"))
          (fun _ => mkTweetResponse 201 [] [])
          (fun _ => 204%Z) true in
  let w := snd (DiscordBot.main [Samples.env_ok; stop; Samples.env_ok]
                                Samples.worldA) in
  fst (DiscordBot.main [Samples.env_ok; stop; Samples.env_ok] Samples.worldA)
  = Ok tt
  /\ map url (posted_articles w) = [lit "A"; lit "B"]
  /\ slept w = [3; 3]
  /\ last (log w) (INFO, []) = (INFO, lit "Bot stopped by user").
Proof. repeat split. Qed.

Example save_each_run_example :
  map url (posted_articles
             (snd (save_each Samples.env_ok [lit "B"; lit "C"; lit "B"]
                             Samples.worldA)))
  = [lit "A"; lit "B"; lit "C"; lit "B"].
Proof. reflexivity. Qed.

End MoreExamples.
